(** * iNaturalist dumper: the fetch pools and their work lists

    A shallow embedding of [scrape.py] and [annotation.py]:
    the work-list builders ([get_urls], [get_observation_ids]), the loader
    ([load_observations]), the image downloader ([download_image],
    [download_images]) and the annotation worker ([scrape_annotations],
    [scrape_annotations_from_ids], [main]).

    Python values are modelled as the code uses them: integers as [Z],
    [str] as [string], the [observations] table as a list of rows, the image
    directory as a finite map from file names to contents, and the asyncio
    queue as a FIFO list with its counter of unfinished tasks. *)

From Stdlib Require Import ZArith Lia Ascii String List.
From stdpp Require Import base option list gmap strings pretty.

Local Open Scope string_scope.
Local Open Scope Z_scope.

(** ** Python string operations used by the scripts *)

Module PyStr.

(** [p[i:]] for [0 <= i]. *)
Fixpoint drop (n : nat) (p : string) : string :=
  match n, p with
  | O, _ => p
  | S n', String _ p' => drop n' p'
  | S _, EmptyString => EmptyString
  end.

(** [p[:i]] for [0 <= i]. *)
Fixpoint take (n : nat) (p : string) : string :=
  match n, p with
  | O, _ => EmptyString
  | S n', String c p' => String c (take n' p')
  | S _, EmptyString => EmptyString
  end.

(** [p.rfind(c)] for a one-character [c]: the highest index, or -1. *)
Fixpoint rfind (c : ascii) (p : string) : Z :=
  match p with
  | EmptyString => -1
  | String a p' =>
      let r := rfind c p' in
      if 0 <=? r then r + 1
      else if Ascii.eqb a c then 0 else -1
  end.

(** [p[i:i+1]] as an optional character. *)
Definition char_at (p : string) (i : Z) : option ascii :=
  if i <? 0 then None else String.get (Z.to_nat i) p.

(** [posixpath.basename]: everything after the last slash. *)
Definition basename (p : string) : string :=
  let i := rfind "/" p + 1 in
  drop (Z.to_nat i) p.

(** The [while filenameIndex < dotIndex] loop of [genericpath._splitext]:
    [true] when a character other than the dot is met before [dotIndex]. *)
Fixpoint splits_at (n : nat) (p : string) (filenameIndex : Z) : bool :=
  match n with
  | O => false
  | S n' =>
      match char_at p filenameIndex with
      | Some c =>
          if Ascii.eqb c "." then splits_at n' p (filenameIndex + 1)
          else true
      | None => true
      end
  end.

(** [posixpath.splitext]: the last dot of the last path component starts
    the extension, leading dots of that component apart. *)
Definition splitext (p : string) : string * string :=
  let sepIndex := rfind "/" p in
  let dotIndex := rfind "." p in
  if (sepIndex <? dotIndex)
     && splits_at (Z.to_nat (dotIndex - (sepIndex + 1))) p (sepIndex + 1)
  then (take (Z.to_nat dotIndex) p, drop (Z.to_nat dotIndex) p)
  else (p, EmptyString).

(** [p.startswith(old)]. *)
Fixpoint startswith (old p : string) : bool :=
  match old, p with
  | EmptyString, _ => true
  | String a old', String b p' => Ascii.eqb a b && startswith old' p'
  | String _ _, EmptyString => false
  end.

(** [s.replace(old, new)] for a non-empty [old]: the occurrences are
    replaced from left to right and do not overlap. *)
Fixpoint replace_go (fuel : nat) (old new s : string) : string :=
  match fuel with
  | O => s
  | S fuel' =>
      match s with
      | EmptyString => EmptyString
      | String c s' =>
          if startswith old s
          then new +:+ replace_go fuel' old new (drop (String.length old) s)
          else String c (replace_go fuel' old new s')
      end
  end.

(** With an empty [old] Python puts [new] before every character and at
    the end. *)
Fixpoint intersperse (new s : string) : string :=
  match s with
  | EmptyString => new
  | String c s' => new +:+ String c (intersperse new s')
  end.

Definition replace (old new s : string) : string :=
  match old with
  | EmptyString => intersperse new s
  | _ => replace_go (String.length s) old new s
  end.

(** [sep.join(parts)]. *)
Fixpoint join (sep : string) (parts : list string) : string :=
  match parts with
  | [] => EmptyString
  | [x] => x
  | x :: rest => x +:+ sep +:+ join sep rest
  end.

(** [str(n)] for an [int]. *)
Definition str (n : Z) : string := pretty n.

End PyStr.

(** ** Coroutines run to a result *)

(** How far a coroutine got, over a state [S]. [Blocked] is an [await] that
    nothing can wake up; [Running] is a run cut short by the step budget or
    still waiting for the network. *)
Inductive outcome (S A : Type) :=
| Returned (v : A) (s : S)
| Raised (e : string) (s : S)
| Blocked (s : S)
| Running (s : S).
Arguments Returned {S A} v s.
Arguments Raised {S A} e s.
Arguments Blocked {S A} s.
Arguments Running {S A} s.

Definition bind {S A B} (m : outcome S A) (k : A -> S -> outcome S B) : outcome S B :=
  match m with
  | Returned v s => k v s
  | Raised e s => Raised e s
  | Blocked s => Blocked s
  | Running s => Running s
  end.

Definition final_state {S A} (m : outcome S A) : S :=
  match m with
  | Returned _ s | Raised _ s | Blocked s | Running s => s
  end.

Definition returned {S A} (m : outcome S A) : bool :=
  match m with
  | Returned _ _ => true
  | _ => false
  end.

Definition raised {S A : Type} (m : outcome S A) : bool :=
  match m with
  | Raised _ _ => true
  | _ => false
  end.


(** ** The relational store and the image directory *)

Module Store.

(** A row of [observations]: the three columns the scripts read, the
    remaining export columns, and the nullable [annotations] column. *)
Record row := Row {
  observation_id : Z;
  taxon_id : Z;
  image_url : string;
  other_columns : list string;
  annotations : option string
}.

Abbreviation table := (list row).

#[global] Instance byte_eq_dec : EqDecision Byte.byte := Byte.byte_eq_dec.

(** The files of [IMAGE_DIR], keyed by their name inside the directory.
    [IMAGE_DIR] comes from [common], which only fixes where the directory
    is. *)
Abbreviation image_dir := (gmap string (list Byte.byte)).

(** [os.path.exists(os.path.join(IMAGE_DIR, name))]. *)
Definition exists_ (files : image_dir) (name : string) : bool :=
  match files !! name with
  | Some _ => true
  | None => false
  end.

(** [UPDATE observations SET annotations=? WHERE id=?]. *)
Definition update_annotations (value : string) (oid : Z) (t : table) : table :=
  map (fun r =>
         if observation_id r =? oid
         then Row (observation_id r) (taxon_id r) (image_url r)
                  (other_columns r) (Some value)
         else r) t.

(** [SELECT id FROM observations WHERE annotations IS NULL]. *)
Definition select_id_where_annotations_null (t : table) : list Z :=
  map observation_id
      (filter (fun r => annotations r = None) t).

(** [SELECT id, taxon_id, image_url FROM observations]. *)
Definition select_id_taxon_url (t : table) : list (Z * Z * string) :=
  map (fun r => (observation_id r, taxon_id r, image_url r)) t.

End Store.

(** ** scrape.py: the work list of the image variant *)

Module Scrape.
Import Store.

Definition IMAGE_SIZES : list string := ["small"; "medium"; "large"; "original"].

(** The body of the [for] loop of [get_urls] over the selected rows. *)
Fixpoint get_urls_loop (files : image_dir) (image_size : string) (force : bool)
         (rows : list (Z * Z * string)) : list (Z * Z * string) :=
  match rows with
  | [] => []
  | (image_id, taxon, url) :: rest =>
      let '(name, ext) := PyStr.splitext (PyStr.basename url) in
      if String.eqb ext ".gif" then get_urls_loop files image_size force rest
      else
        let ext := if String.eqb ext "." then ".jpg" else ext in
        if negb (exists_ files (PyStr.str image_id +:+ ext)) || force
        then (image_id, taxon, PyStr.replace "medium" image_size url)
               :: get_urls_loop files image_size force rest
        else get_urls_loop files image_size force rest
  end.

Definition get_urls (files : image_dir) (conn : table) (image_size : string)
           (force : bool) : list (Z * Z * string) :=
  get_urls_loop files image_size force (select_id_taxon_url conn).

(** *** load_observations *)

(** A record of an exported CSV file: the columns the scripts read and the
    remaining ones. *)
Record csv_row := CsvRow {
  csv_id : Z;
  csv_taxon_id : Z;
  csv_image_url : string;
  csv_other : list string
}.

#[global] Instance csv_row_eq_dec : EqDecision csv_row.
Proof. solve_decision. Defined.

Abbreviation dataframe := (list csv_row).

(** A file of the export directory: its name and, for an archive, the CSV
    members by name. *)
Definition export_file : Type := string * gmap string dataframe.

(** [file.endswith(".zip")]. *)
Definition endswith (suffix file : string) : bool :=
  let n := String.length file in
  let k := String.length suffix in
  (k <=? n)%nat && String.eqb (PyStr.drop (n - k) file) suffix.

(** [file.rstrip(chars)]: trailing characters that occur in [chars] are
    removed. *)
Fixpoint rstrip (chars : list ascii) (file : string) : string :=
  match file with
  | EmptyString => EmptyString
  | String c rest =>
      match rstrip chars rest with
      | EmptyString =>
          if bool_decide (c ∈ chars) then EmptyString else String c EmptyString
      | rest' => String c rest'
      end
  end.

(** The [for file in os.listdir(export_dir)] loop; [inl] is the [KeyError]
    of [zf.open] on a missing member. *)
Fixpoint read_exports (listing : list export_file) : string + list dataframe :=
  match listing with
  | [] => inr []
  | (file, members) :: rest =>
      if endswith ".zip" file then
        match members !! rstrip ["."; "z"; "i"; "p"]%char file with
        | None => inl "There is no item named in the archive"
        | Some df =>
            match read_exports rest with
            | inl e => inl e
            | inr dfs => inr (df :: dfs)
            end
        end
      else read_exports rest
  end.

(** [pd.concat(dataframes)]; an empty list is a [ValueError]. *)
Definition concat_frames (dataframes : list dataframe) : string + dataframe :=
  match dataframes with
  | [] => inl "No objects to concatenate"
  | _ => inr (concat dataframes)
  end.

(** [df.drop_duplicates(inplace=True)]: the first of equal records is
    kept. *)
Fixpoint drop_duplicates_from (seen : list csv_row) (df : dataframe) : dataframe :=
  match df with
  | [] => []
  | r :: rest =>
      if bool_decide (r ∈ seen) then drop_duplicates_from seen rest
      else r :: drop_duplicates_from (r :: seen) rest
  end.

Definition drop_duplicates (df : dataframe) : dataframe :=
  drop_duplicates_from [] df.

(** [df["annotations"] = None] followed by
    [df.to_sql("observations", conn, index=False, if_exists="replace")]:
    the table is dropped and created again from the frame. *)
Definition to_sql_replace (df : dataframe) (old : table) : table :=
  map (fun r => Row (csv_id r) (csv_taxon_id r) (csv_image_url r) (csv_other r) None) df.

(** [load_observations]: the table after the run, or the exception that
    ended it before the write. *)
Definition load_observations (listing : list export_file) (db : table)
  : string + table :=
  match read_exports listing with
  | inl e => inl e
  | inr dataframes =>
      match concat_frames dataframes with
      | inl e => inl e
      | inr df => inr (to_sql_replace (drop_duplicates df) db)
      end
  end.

(** *** download_image and download_images *)

Inductive read_result :=
| ReadRaises (e : string)
| Body (data : list Byte.byte).

(** What [session.get] gives: an exception, or a status with the outcome
    of [resp.read()], which is awaited for status 200 only. *)
Inductive response :=
| Raises (e : string)
| Http (status : Z) (body : read_result).

Abbreviation item := (Z * Z * string)%type.

Inductive task_state := Created | InFlight | Done.

#[global] Instance task_state_eq_dec : EqDecision task_state.
Proof. solve_decision. Defined.

(** The event loop while [download_images] runs: the value of the
    semaphore, the tasks in creation order, the image directory, the log
    records, the requests issued so far, and the largest number of
    requests that were in flight together. *)
Record loop := Loop {
  sem_value : Z;
  tasks : list (item * task_state);
  files : image_dir;
  log : list string;
  requested : list item;
  high_water : nat
}.

Definition in_flight (s : loop) : nat :=
  length (filter (fun t => snd t = InFlight) (tasks s)).

Definition pending (s : loop) : list item :=
  map fst (filter (fun t => snd t <> Done) (tasks s)).

Definition logging_info (msg : string) (s : loop) : loop :=
  Loop (sem_value s) (tasks s) (files s) (log s ++ [msg]) (requested s) (high_water s).

(** [open(os.path.join(IMAGE_DIR, name), "wb")] with [data] written. *)
Definition write_file (name : string) (data : list Byte.byte) (s : loop) : loop :=
  Loop (sem_value s) (tasks s) (<[name := data]> (files s)) (log s)
       (requested s) (high_water s).

(** [download_image] from the point where [session.get] has answered.
    Opening the file for writing creates it empty before the body is
    read. *)
Definition download_image (image_id taxon_id : Z) (image_url : string)
           (r : response) (s : loop) : loop :=
  let failed (e : string) :=
    "Failed to download " +:+ PyStr.str image_id +:+ " for taxon "
      +:+ PyStr.str taxon_id +:+ ": " +:+ e in
  match r with
  | Raises e => logging_info (failed e) s
  | Http status body =>
      if status =? 200 then
        let ext := snd (PyStr.splitext (PyStr.basename image_url)) in
        let name := PyStr.str image_id +:+ ext in
        let s := write_file name [] s in
        match body with
        | ReadRaises e => logging_info (failed e) s
        | Body data =>
            logging_info
              ("Saved " +:+ PyStr.str image_id +:+ " for taxon "
                 +:+ PyStr.str taxon_id +:+ ".")
              (write_file name data s)
        end
      else logging_info (failed (PyStr.str status)) s
  end.

(** [await sem.acquire()]: immediate when the value is positive; [None]
    when the caller would have to wait. *)
Definition acquire (s : loop) : option loop :=
  if 0 <? sem_value s
  then Some (Loop (sem_value s - 1) (tasks s) (files s) (log s) (requested s)
                  (high_water s))
  else None.

Definition release (s : loop) : loop :=
  Loop (sem_value s + 1) (tasks s) (files s) (log s) (requested s) (high_water s).

(** [tasks.append(asyncio.create_task(...))]: the task is scheduled, not
    run. *)
Definition create_task (it : item) (s : loop) : loop :=
  Loop (sem_value s) (tasks s ++ [(it, Created)]) (files s) (log s)
       (requested s) (high_water s).

(** The [for] loop of [download_images]: every turn enters the semaphore,
    creates the task and leaves the semaphore. The loop never suspends
    while the value is positive, so no task starts before it ends;
    [None] is a turn that waits on a semaphore nobody else holds. *)
Fixpoint spawn (urls : list item) (s : loop) : option loop :=
  match urls with
  | [] => Some s
  | it :: rest =>
      match acquire s with
      | None => None
      | Some s1 => spawn rest (release (create_task it s1))
      end
  end.

(** A created task runs up to its [session.get]: the request is now in
    flight. *)
Definition start (i : nat) (s : loop) : loop :=
  match tasks s !! i with
  | Some (it, Created) =>
      let s1 := Loop (sem_value s) (<[i := (it, InFlight)]> (tasks s)) (files s)
                     (log s) (requested s ++ [it]) (high_water s) in
      Loop (sem_value s1) (tasks s1) (files s1) (log s1) (requested s1)
           (Nat.max (high_water s1) (in_flight s1))
  | _ => s
  end.

(** The first pass of the event loop under [asyncio.gather]: the ready
    tasks run in creation order, each up to its first suspension. *)
Fixpoint start_from (i n : nat) (s : loop) : loop :=
  match n with
  | O => s
  | S n' => start_from (S i) n' (start i s)
  end.

Definition start_all (s : loop) : loop := start_from 0 (length (tasks s)) s.

(** The answer to the request of task [i] arrives and the task runs to
    its end. *)
Definition complete (net : nat -> string -> response) (i : nat) (s : loop) : loop :=
  match tasks s !! i with
  | Some ((image_id, taxon, url) as it, InFlight) =>
      let s1 := download_image image_id taxon url (net i url) s in
      Loop (sem_value s1) (<[i := (it, Done)]> (tasks s1)) (files s1) (log s1)
           (requested s1) (high_water s1)
  | _ => s
  end.

(** The answers arrive in the order [arrivals]. *)
Definition complete_all (net : nat -> string -> response) (arrivals : list nat)
           (s : loop) : loop :=
  fold_left (fun s i => complete net i s) arrivals s.

Definition initial (semaphore : Z) (dir : image_dir) : loop :=
  Loop semaphore [] dir [] [] O.

(** [download_images]. [asyncio.Semaphore] refuses a negative value;
    [asyncio.gather] returns when every task is done. *)
Definition download_images (net : nat -> string -> response) (arrivals : list nat)
           (urls : list item) (image_size : string) (semaphore : Z)
           (dir : image_dir) : outcome loop unit :=
  let s := initial semaphore dir in
  if semaphore <? 0 then Raised "Semaphore initial value must be >= 0" s
  else
    match spawn urls s with
    | None => Blocked s
    | Some s =>
        let s := complete_all net arrivals (start_all s) in
        match pending s with
        | [] => Returned tt (logging_info ("Downloaded " +:+ image_size +:+ " images.") s)
        | _ => Running s
        end
    end.


(** A failed attempt: an exception of the request, or a status other than
    200; and the text it leaves in the log. *)
Definition failed (r : response) : Prop :=
  match r with
  | Raises _ => True
  | Http status _ => status <> 200
  end.

Definition failure_text (r : response) : string :=
  match r with
  | Raises e => e
  | Http status _ => PyStr.str status
  end.

(** Task lists with every task just created, or every request in flight. *)
Definition created (its : list item) : list (item * task_state) :=
  map (fun it => (it, Created)) its.

Definition flying (its : list item) : list (item * task_state) :=
  map (fun it => (it, InFlight)) its.

(** No task is still waiting for its first run. *)
Definition started (s : loop) : Prop :=
  forall (j : nat) (it : item) (st : task_state),
    tasks s !! j = Some (it, st) -> st <> Created.

(** Task [j] has run to its end. *)
Definition done_at (j : nat) (s : loop) : Prop :=
  exists it : item, tasks s !! j = Some (it, Done).

End Scrape.

(** ** annotation.py *)

Module Annotation.
Import Store.

(** One element of [observation["annotations"]]; the worker reads
    [a["controlled_value"]["label"]]. *)
Inductive annotation :=
| Labelled (label : string)
| NoControlledValue
| NoLabel.

(** One element of [data["results"]]; [obs_annotations] is [None] when the
    key is absent ([observation.get("annotations", [])]). *)
Record observation := Observation { obs_annotations : option (list annotation) }.

(** The JSON envelope; a field is [None] when its key is absent. *)
Record payload := Payload {
  total_results : option Z;
  results : option (list observation)
}.

Inductive json_result :=
| JsonRaises (e : string)
| Json (data : payload).

(** What [session.get] gives: an exception, or a status with the outcome
    of [r.json()], which is awaited for status 200 only. *)
Inductive response :=
| Raises (e : string)
| Http (status : Z) (body : json_result).

(** What the worker does, in order. *)
Inductive event :=
| Get (oid : Z)
| Request (oid : Z) (attempt : nat)
| Print (msg : string)
| Execute (value : string) (oid : Z)
| Commit
| Log (msg : string)
| Put (oid : Z)
| TaskDone.

(** The queue with its counter of unfinished tasks, the connection (the
    rows as the connection sees them and the rows flushed by the last
    commit), the number of requests made per item, and the trace. *)
Record state := State {
  queue : list Z;
  unfinished : nat;
  working : table;
  durable : table;
  attempts : gmap Z nat;
  trace : list event
}.

Definition emit (e : event) (s : state) : state :=
  State (queue s) (unfinished s) (working s) (durable s) (attempts s) (trace s ++ [e]).

(** [await queue.put(x)] on an unbounded queue. *)
Definition put (x : Z) (s : state) : state :=
  emit (Put x)
    (State (queue s ++ [x]) (S (unfinished s)) (working s) (durable s)
           (attempts s) (trace s)).

(** [queue.task_done()]; [None] is its [ValueError]. *)
Definition task_done (s : state) : option state :=
  match unfinished s with
  | O => None
  | S n =>
      Some (emit TaskDone
              (State (queue s) n (working s) (durable s) (attempts s) (trace s)))
  end.

(** [await conn.execute("UPDATE ...", (annotations, observation_id))]. *)
Definition execute (value : string) (oid : Z) (s : state) : state :=
  emit (Execute value oid)
    (State (queue s) (unfinished s) (update_annotations value oid (working s))
           (durable s) (attempts s) (trace s)).

(** [await conn.commit()]. *)
Definition commit (s : state) : state :=
  emit Commit
    (State (queue s) (unfinished s) (working s) (working s) (attempts s) (trace s)).

Definition logging_info (msg : string) (s : state) : state := emit (Log msg) s.

Definition attempts_of (s : state) (oid : Z) : nat :=
  default O (attempts s !! oid).

(** [session.get(...)]: the next answer of the network for this item. *)
Definition request (net : Z -> nat -> response) (oid : Z) (s : state)
  : response * state :=
  let n := attempts_of s oid in
  (net oid n,
   emit (Request oid n)
     (State (queue s) (unfinished s) (working s) (durable s)
            (<[oid := S n]> (attempts s)) (trace s))).

(** The list comprehension over the annotations: the labels, or the
    [KeyError] of the first element that lacks one. *)
Fixpoint labels (l : list annotation) : string + list string :=
  match l with
  | [] => inr []
  | Labelled x :: rest =>
      match labels rest with
      | inr xs => inr (x :: xs)
      | inl e => inl e
      end
  | NoControlledValue :: _ => inl "'controlled_value'"
  | NoLabel :: _ => inl "'label'"
  end.

(** The [except Exception] handler. *)
Definition on_exception (oid : Z) (e : string) (s : state) : state :=
  put oid
    (logging_info ("Failed to scrape annotations for " +:+ PyStr.str oid
                     +:+ ": " +:+ e) s).

(** The body of the [try] once the response is there. *)
Definition classify (oid : Z) (r : response) (s : state) : state :=
  match r with
  | Raises e => on_exception oid e s
  | Http status body =>
      if status =? 200 then
        match body with
        | JsonRaises e => on_exception oid e s
        | Json data =>
            match total_results data with
            | None => on_exception oid "'total_results'" s
            | Some n =>
                if n =? 1 then
                  match results data with
                  | None => on_exception oid "'results'" s
                  | Some [] => on_exception oid "list index out of range" s
                  | Some (observation :: _) =>
                      match labels (default [] (obs_annotations observation)) with
                      | inl e => on_exception oid e s
                      | inr annotations =>
                          if (0 <? length annotations)%nat then
                            let annotations := PyStr.join "," annotations in
                            commit
                              (execute annotations oid
                                 (emit (Print ("Scraped " +:+ PyStr.str oid
                                                 +:+ " - " +:+ annotations)) s))
                          else s
                      end
                  end
                else
                  put oid
                    (logging_info
                       ("Failed to scrape annotations for " +:+ PyStr.str oid
                          +:+ ": " +:+ PyStr.str n +:+ " results.") s)
            end
        end
      else
        put oid
          (logging_info
             ("Failed to scrape annotations for " +:+ PyStr.str oid
                +:+ ": " +:+ PyStr.str status) s)
  end.

(** One turn of the [while True] loop on a non-empty queue. *)
Definition iteration (net : Z -> nat -> response) (oid : Z) (rest : list Z)
           (s : state) : option state :=
  let s := emit (Get oid)
             (State rest (unfinished s) (working s) (durable s)
                    (attempts s) (trace s)) in
  let '(r, s) := request net oid s in
  task_done (classify oid r s).

(** [scrape_annotations]: the loop has no [break] and no [return]. It is
    awaited by the only task of the event loop, so a [queue.get()] on an
    empty queue is never woken up. *)
Fixpoint scrape_annotations (net : Z -> nat -> response) (fuel : nat)
         (s : state) : outcome state unit :=
  match fuel with
  | O => Running s
  | S fuel' =>
      match queue s with
      | [] => Blocked s
      | oid :: rest =>
          match iteration net oid rest s with
          | None => Raised "task_done() called too many times" s
          | Some s' => scrape_annotations net fuel' s'
          end
      end
  end.

(** The values [main] binds to [annotations]. *)
Inductive pyvalue :=
| PyNone
| PyPairs (l : list (string * Z)).

(** The [for] loop that fills the queue. *)
Definition enqueue_all (ids : list Z) (s : state) : state :=
  fold_left (fun s oid => put oid s) ids s.

Definition initial (db : table) : state :=
  State [] O db db ∅ [].

(** The end of [scrape_annotations_from_ids], from the point where the
    awaited worker has come back: the body stops there without a [return],
    so the value of the call is [None]. *)
Definition scrape_annotations_from_ids_tail (awaited : outcome state unit)
  : outcome state pyvalue :=
  bind awaited (fun _ s => Returned PyNone s).

(** [scrape_annotations_from_ids]: connect, fill the queue, await the
    worker. The connector and the session only carry the requests, which
    the network answers. *)
Definition scrape_annotations_from_ids (net : Z -> nat -> response)
           (fuel : nat) (ids : list Z) (db : table) : outcome state pyvalue :=
  scrape_annotations_from_ids_tail
    (scrape_annotations net fuel (enqueue_all ids (initial db))).

Definition get_observation_ids (conn : table) : list Z :=
  select_id_where_annotations_null conn.

(** [conn.executemany("UPDATE ...", annotations)]: iterating [None] is a
    [TypeError]. *)
Definition executemany (annotations : pyvalue) (t : table) : string + table :=
  match annotations with
  | PyNone => inl "'NoneType' object is not iterable"
  | PyPairs l =>
      inr (fold_left (fun t p => update_annotations (fst p) (snd p) t) l t)
  end.

(** [len(annotations)]; [None] has no length. *)
Definition len (annotations : pyvalue) : nat :=
  match annotations with
  | PyNone => O
  | PyPairs l => length l
  end.

(** The statements of [main] that follow [asyncio.run(...)], whose result
    is bound to [annotations]: the batch [executemany] on the rows on disk,
    [conn.commit()], and the log record. *)
Definition main_tail (run : outcome state pyvalue) : outcome state unit :=
  bind run
       (fun annotations s =>
          match executemany annotations (durable s) with
          | inl e => Raised e s
          | inr t =>
              Returned tt
                (logging_info
                   ("Wrote " +:+ PyStr.str (Z.of_nat (len annotations))
                      +:+ " annotations to database.")
                   (commit (State (queue s) (unfinished s) t (durable s)
                                  (attempts s) (trace s))))
          end).

(** [main], from the connection on: the rows on disk when it stops, and
    how it stopped. *)
Definition main (net : Z -> nat -> response) (fuel : nat) (db : table)
  : outcome state unit :=
  let ids := get_observation_ids db in
  main_tail (scrape_annotations_from_ids net fuel ids db).

(** *** Answers that take an item off the queue *)

(** The answer is a 200 with one record whose labels can all be read: the
    item is not put back. *)
Definition settled (r : response) : bool :=
  match r with
  | Http status (Json (Payload (Some n) (Some (observation :: _)))) =>
      (status =? 200) && (n =? 1)
      && match labels (default [] (obs_annotations observation)) with
         | inr _ => true
         | inl _ => false
         end
  | _ => false
  end.

(** The answer is settled and has a label: the item is committed. *)
Definition commits (r : response) : bool :=
  match r with
  | Http status (Json (Payload (Some n) (Some (observation :: _)))) =>
      (status =? 200) && (n =? 1)
      && match labels (default [] (obs_annotations observation)) with
         | inr (_ :: _) => true
         | _ => false
         end
  | _ => false
  end.

(** From attempt [a] on, the item fails [n] times and is then committed. *)
Fixpoint settles_in (net : Z -> nat -> response) (oid : Z) (a n : nat) : bool :=
  match n with
  | O => commits (net oid a)
  | S n' => negb (settled (net oid a)) && settles_in net oid (S a) n'
  end.

(** The number of commits in a trace. *)
Fixpoint commits_in (t : list event) : nat :=
  match t with
  | [] => O
  | Commit :: t' => S (commits_in t')
  | _ :: t' => commits_in t'
  end.

(** The loop turns needed to empty a queue whose items fail [ns] times. *)
Definition turns (ns : list nat) : nat := list_sum (map S ns).

End Annotation.

(** ** A scanner for the bare "." extension *)

Module DotScan.

(** [c in u]. *)
Fixpoint contains (c : ascii) (u : string) : bool :=
  match u with
  | EmptyString => false
  | String a u' => Ascii.eqb a c || contains c u'
  end.

(** The scanner reads a path from the left and keeps two facts about the
    component it is in: whether a character other than the dot was seen,
    and whether the last character is a dot. *)
Definition step (st : bool * bool) (c : ascii) : bool * bool :=
  if Ascii.eqb c "/" then (false, false)
  else if Ascii.eqb c "." then (fst st, true)
  else (true, false).

Fixpoint scan (st : bool * bool) (u : string) : bool * bool :=
  match u with
  | EmptyString => st
  | String c u' => scan (step st c) u'
  end.

(** The last component ends in a dot that is not one of its leading
    dots. *)
Definition bare_dot (u : string) : bool :=
  fst (scan (false, false) u) && snd (scan (false, false) u).

End DotScan.

(** ** The work list as the specification words it *)

Module Claimed.
Import Store Scrape.

(** The extension of the last component of a URL. *)
Definition url_ext (url : string) : string :=
  snd (PyStr.splitext (PyStr.basename url)).

Definition triple (image_size : string) (r : row) : Z * Z * string :=
  (observation_id r, taxon_id r, PyStr.replace "medium" image_size (image_url r)).

(** "whose URL extension is not the excluded '.gif' and for which either no
    file named by the identifier plus extension exists in the image
    directory or the force-overwrite flag is set". *)
Definition listed (files : image_dir) (force : bool) (r : row) : Prop :=
  url_ext (image_url r) <> ".gif"
  /\ (exists_ files (PyStr.str (observation_id r) +:+ url_ext (image_url r)) = false
      \/ force = true).

#[global] Instance listed_dec files force r : Decision (listed files force r).
Proof. unfold listed. apply _. Defined.

Definition get_urls_claimed (files : image_dir) (t : table) (image_size : string)
           (force : bool) : list (Z * Z * string) :=
  map (triple image_size) (filter (listed files force) t).

(** The extension [get_urls] uses for its existing-file test. *)
Definition check_ext (ext : string) : string :=
  if String.eqb ext "." then ".jpg" else ext.

(** The same with the file name that [get_urls] tests: a bare "."
    extension counts as ".jpg". *)
Definition listed_jpg (files : image_dir) (force : bool) (r : row) : Prop :=
  url_ext (image_url r) <> ".gif"
  /\ (exists_ files (PyStr.str (observation_id r)
                       +:+ check_ext (url_ext (image_url r))) = false
      \/ force = true).

#[global] Instance listed_jpg_dec files force r : Decision (listed_jpg files force r).
Proof. unfold listed_jpg. apply _. Defined.

Definition get_urls_amended (files : image_dir) (t : table) (image_size : string)
           (force : bool) : list (Z * Z * string) :=
  map (triple image_size) (filter (listed_jpg files force) t).

End Claimed.

(** ** export.py: the checks and the wait of [export] *)

Module Exporter.

Definition MAX_EXPORT : Z := 200000.

(** What [_count_results] returns: [False], or the [total_results] of the
    answer. *)
Inductive count :=
| CountFalse
| Count (n : Z).

(** [_count_results]: [data] is the [total_results] field of the JSON
    answer, [None] when the key is absent ([inl] is the [KeyError]). *)
Definition _count_results (status : Z) (data : option Z) : string + count :=
  if negb (status =? 200) then inr CountFalse
  else match data with
       | None => inl "'total_results'"
       | Some n => inr (Count n)
       end.

(** [total_results == k] for an integer [k]: Python's [False] equals 0. *)
Definition count_eq (c : count) (k : Z) : bool :=
  match c with
  | CountFalse => 0 =? k
  | Count n => n =? k
  end.

(** [total_results > k]. *)
Definition count_gt (c : count) (k : Z) : bool :=
  match c with
  | CountFalse => k <? 0
  | Count n => k <? n
  end.

(** [str(total_results)] in the f-string. *)
Definition count_str (c : count) : string :=
  match c with
  | CountFalse => "False"
  | Count n => PyStr.str n
  end.

(** The three tests [export] makes on [total_results], in order; [inl] is
    the message of the [ValueError]. [False] is Python's [False], that is
    the integer 0 under [==]. *)
Definition export_checks (total_results : count) : string + unit :=
  if count_eq total_results 0 (* total_results == False *)
  then inl "Failed to count results"
  else if count_eq total_results 0
  then inl "No results found"
  else if count_gt total_results MAX_EXPORT
  then inl ("Too many results (" +:+ count_str total_results +:+ " > "
              +:+ PyStr.str MAX_EXPORT +:+ ")")
  else inr tt.

(** An element of [data["outputs"]]. *)
Record output := Output { output_id : Z; file_file_name : string }.

(** The answer to one poll of [run.json]: an exception anywhere in the
    turn, or a status with the outputs of the JSON body. *)
Inductive poll :=
| PollRaises (e : string)
| Poll (status : Z) (outputs : list output).

(** [r.raise_for_status()] raises for the statuses 400 to 599. *)
Definition raise_for_status (status : Z) : bool :=
  (400 <=? status) && (status <? 600).

(** The [while not completed] loop of [export]; the state is the number of
    [time.sleep(2)] calls made so far, which is also the number of the
    poll. *)
Fixpoint export_wait (answers : nat -> poll) (fuel : nat) (sleeps : nat)
  : outcome nat (list output) :=
  match fuel with
  | O => Running sleeps
  | S fuel' =>
      match answers sleeps with
      | PollRaises e => Raised e sleeps
      | Poll status outputs =>
          if raise_for_status status then Raised "HTTPError" sleeps
          else if (0 <? length outputs)%nat then Returned outputs sleeps
          else export_wait answers fuel' (S sleeps)
      end
  end.

(** [output = data["outputs"][0]] and the URL of the archive. *)
Definition export_url (outputs : list output) : option string :=
  match outputs with
  | [] => None
  | o :: _ =>
      Some ("https://www.inaturalist.org/attachments/flow_task_outputs/"
              +:+ PyStr.str (output_id o) +:+ "/" +:+ file_file_name o)
  end.

End Exporter.

(** ** What a run may change in a row *)

Module Frame.
Import Store.

(** [r'] is [r] with, at most, its [annotations] set to a value, and that
    only when the identifier of the row is one of [ids]. *)
Definition annotated_from (ids : list Z) (r r' : row) : Prop :=
  observation_id r' = observation_id r
  /\ taxon_id r' = taxon_id r
  /\ image_url r' = image_url r
  /\ other_columns r' = other_columns r
  /\ (annotations r' = annotations r
      \/ (observation_id r ∈ ids /\ exists v : string, annotations r' = Some v)).

End Frame.

(** * Properties *)

(** ** Examples of the string operations *)

Example splitext_jpg :
  PyStr.splitext (PyStr.basename "https://h/photos/1/medium.jpg") = ("medium", ".jpg").
Proof. vm_compute. reflexivity. Qed.

Example splitext_bare_dot :
  PyStr.splitext (PyStr.basename "https://h/photos/1/medium.") = ("medium", ".").
Proof. vm_compute. reflexivity. Qed.

Example splitext_leading_dots :
  PyStr.splitext (PyStr.basename "https://h/photos/1/..") = ("..", "").
Proof. vm_compute. reflexivity. Qed.

Example splitext_query :
  PyStr.splitext (PyStr.basename "https://h/photos/1/medium.jpeg?15") = ("medium", ".jpeg?15").
Proof. vm_compute. reflexivity. Qed.

Example replace_medium :
  PyStr.replace "medium" "large" "https://medium.h/1/medium.jpg" = "https://large.h/1/large.jpg".
Proof. vm_compute. reflexivity. Qed.

Example str_42 : PyStr.str 42 = "42".
Proof. vm_compute. reflexivity. Qed.

(** ** get_observation_ids *)

Section ObservationIds.
Import Store Annotation.

(** C7: [get_observation_ids] returns the identifiers of the rows whose
    [annotations] column is NULL, one per such row and in table order, and
    no other identifier. *)
Theorem get_observation_ids_exact (conn : table) :
  (forall x : Z,
      x ∈ get_observation_ids conn
      <-> exists r : row, r ∈ conn /\ annotations r = None /\ observation_id r = x)
  /\ get_observation_ids conn
     = map observation_id (filter (fun r => annotations r = None) conn)
  /\ length (get_observation_ids conn)
     = length (filter (fun r => annotations r = None) conn).
Proof.
  unfold get_observation_ids, select_id_where_annotations_null.
  split; [|split; [reflexivity | apply length_map]].
  intros x. rewrite list_elem_of_In, in_map_iff. split.
  - intros (r & Hid & Hin). exists r.
    apply list_elem_of_In, list_elem_of_filter in Hin. tauto.
  - intros (r & Hin & Hnull & Hid). exists r. split; [exact Hid|].
    apply list_elem_of_In, list_elem_of_filter. tauto.
Qed.

Example get_observation_ids_example :
  get_observation_ids
    [Row 1 10 "https://h/1/medium.jpg" [] None;
     Row 2 10 "https://h/2/medium.jpg" [] (Some "Alive");
     Row 3 11 "https://h/3/medium.jpg" [] None] = [1; 3].
Proof. reflexivity. Qed.

End ObservationIds.

(** ** get_urls *)

Section WorkList.
Import Store Scrape Claimed.

Lemma exists_lookup (files : image_dir) (name : string) :
  exists_ files name = true <-> is_Some (files !! name).
Proof.
  unfold exists_. destruct (files !! name); split; intros H;
    try reflexivity; try discriminate; eauto.
  destruct H; discriminate.
Qed.

Lemma get_urls_loop_select (files : image_dir) (size : string) (force : bool)
      (t : table) :
  get_urls_loop files size force (select_id_taxon_url t)
  = get_urls_amended files t size force.
Proof.
  unfold get_urls_amended, select_id_taxon_url.
  induction t as [|r t IH]; [reflexivity|].
  cbn [map get_urls_loop]. rewrite filter_cons.
  assert (listed_jpg files force r
          <-> url_ext (image_url r) <> ".gif"
              /\ (exists_ files (PyStr.str (observation_id r)
                                   +:+ check_ext (url_ext (image_url r))) = false
                  \/ force = true)) as Hl by reflexivity.
  unfold url_ext, check_ext in Hl.
  destruct (PyStr.splitext (PyStr.basename (image_url r))) as [name ext].
  cbn [snd] in Hl.
  destruct (String.eqb_spec ext ".gif") as [Hgif|Hgif].
  - rewrite decide_False by tauto. exact IH.
  - destruct (exists_ files _) eqn:Hex; destruct force; cbn [negb orb].
    + rewrite decide_True by tauto. cbn [map]. f_equal. exact IH.
    + rewrite decide_False by (rewrite Hl; intros [_ [?|?]]; discriminate). exact IH.
    + rewrite decide_True by tauto. cbn [map]. f_equal. exact IH.
    + rewrite decide_True by tauto. cbn [map]. f_equal. exact IH.
Qed.

(** C6, as amended: [get_urls] lists, in table order, the rows whose URL
    extension is not ".gif" and whose file, named by the identifier plus the
    extension with a bare "." read as ".jpg", is absent or forced; an
    identifier whose rows have the extension ".jpg" or "." is left out of
    the list when the file [<id>.jpg] exists and [force] is false. *)
Theorem get_urls_lists_missing_files (files : image_dir) (conn : table)
        (image_size : string) (force : bool) :
  get_urls files conn image_size force = get_urls_amended files conn image_size force
  /\ (forall i : Z,
         exists_ files (PyStr.str i +:+ ".jpg") = true ->
         (forall r : row, r ∈ conn -> observation_id r = i ->
                          url_ext (image_url r) = ".jpg" \/ url_ext (image_url r) = ".") ->
         i ∉ map (fun x => fst (fst x)) (get_urls files conn image_size false)).
Proof.
  split; [apply get_urls_loop_select|].
  intros i Hfile Hext Hi.
  apply list_elem_of_In, in_map_iff in Hi as (x & Hi & Hx).
  unfold get_urls in Hx. rewrite get_urls_loop_select in Hx.
  unfold get_urls_amended in Hx.
  apply in_map_iff in Hx as (r & <- & Hr).
  apply list_elem_of_In, list_elem_of_filter in Hr as [[_ Hl] Hr].
  cbn in Hi. subst i.
  assert (check_ext (url_ext (image_url r)) = ".jpg") as Hc.
  { destruct (Hext r Hr eq_refl) as [-> | ->]; reflexivity. }
  rewrite Hc, Hfile in Hl. destruct Hl; discriminate.
Qed.

(** With the file [42.jpg] in place and [force] off, identifier 42 is not
    in the work list. *)
Lemma get_urls_lists_missing_files_witness :
  exists_ ({[ "42.jpg" := [] ]} : image_dir) (PyStr.str 42 +:+ ".jpg") = true
  /\ 42 ∉ map (fun x => fst (fst x))
          (get_urls {[ "42.jpg" := [] ]}
             [Row 42 7 "https://h/photos/42/medium.jpg" [] None;
              Row 43 7 "https://h/photos/43/medium.jpg" [] None] "large" false).
Proof.
  split; [vm_compute; reflexivity|].
  refine (proj2 (get_urls_lists_missing_files _ _ _ false) 42 _ _).
  - vm_compute. reflexivity.
  - intros r Hr Hid. left.
    apply list_elem_of_In in Hr. cbn in Hr.
    destruct Hr as [<-|[<-|[]]]; [vm_compute; reflexivity|discriminate].
Defined.

(** C6, as worded, fails on a URL whose extension is the bare ".": the
    file named identifier plus extension is [45.] and exists, yet the row is
    listed, because the test looks for [45.jpg]. *)
Lemma get_urls_bare_dot_counterexample :
  get_urls_claimed {[ "45." := [] ]}
    [Row 45 7 "https://h/photos/45/medium." [] None] "medium" false = []
  /\ get_urls {[ "45." := [] ]}
       [Row 45 7 "https://h/photos/45/medium." [] None] "medium" false
     = [(45, 7, "https://h/photos/45/medium.")]
  /\ get_urls {[ "45." := [] ]}
       [Row 45 7 "https://h/photos/45/medium." [] None] "medium" false
     <> get_urls_claimed {[ "45." := [] ]}
          [Row 45 7 "https://h/photos/45/medium." [] None] "medium" false.
Proof.
  vm_compute. repeat split; discriminate.
Qed.

End WorkList.

(** ** load_observations *)

Section Loading.
Import Store Scrape.

Lemma to_sql_replace_null (df : dataframe) (old : table) (r : row) :
  r ∈ to_sql_replace df old -> annotations r = None.
Proof.
  unfold to_sql_replace. intros Hr.
  apply list_elem_of_In, in_map_iff in Hr as (c & <- & _). reflexivity.
Qed.

Lemma load_observations_completes (listing : list export_file) (db : table)
      (df : dataframe) (dfs : list dataframe) :
  read_exports listing = inr (df :: dfs) ->
  exists db', load_observations listing db = inr db'.
Proof.
  intros H. unfold load_observations. rewrite H. cbn. eauto.
Qed.

(** C9: a run of [load_observations] that reaches its write replaces the
    table: the new rows do not depend on the rows that were there, and
    every one of them has [annotations] NULL. *)
Theorem load_observations_replaces (listing : list export_file) (db db' : table) :
  load_observations listing db = inr db' ->
  (forall r : row, r ∈ db' -> annotations r = None)
  /\ (forall prior : table, load_observations listing prior = inr db').
Proof.
  unfold load_observations.
  destruct (read_exports listing) as [e|dfs]; [discriminate|].
  destruct (concat_frames dfs) as [e|df]; [discriminate|].
  intros [= <-]. split.
  - intros r. apply to_sql_replace_null.
  - intros prior. reflexivity.
Qed.

(** An annotated row does not survive a reload of the same export. *)
Lemma load_observations_replaces_witness :
  load_observations
    [("observations-1.csv.zip",
      {[ "observations-1.csv" := [CsvRow 1 10 "https://h/1/medium.jpg" []] ]})]
    [Row 1 10 "https://h/1/medium.jpg" [] (Some "Alive")]
  = inr [Row 1 10 "https://h/1/medium.jpg" [] None]
  /\ (forall r : row,
         r ∈ [Row 1 10 "https://h/1/medium.jpg" [] None] -> annotations r = None)
  /\ (forall prior : table,
         load_observations
           [("observations-1.csv.zip",
             {[ "observations-1.csv" := [CsvRow 1 10 "https://h/1/medium.jpg" []] ]})]
           prior
         = inr [Row 1 10 "https://h/1/medium.jpg" [] None]).
Proof.
  split; [vm_compute; reflexivity|].
  apply (load_observations_replaces _ [Row 1 10 "https://h/1/medium.jpg" [] (Some "Alive")]).
  vm_compute. reflexivity.
Defined.

(** Without an archive the run stops at [pd.concat], before the write. *)
Example load_observations_no_archive (db : table) :
  load_observations [] db = inl "No objects to concatenate".
Proof. reflexivity. Qed.

End Loading.

(** ** The annotation worker, one turn of the loop *)

Section WorkerTurn.
Import Store Annotation.

Lemma update_annotations_hit (value : string) (oid : Z) (t : table) (r : row) :
  r ∈ update_annotations value oid t -> observation_id r = oid ->
  annotations r = Some value.
Proof.
  unfold update_annotations. intros Hr Hid.
  apply list_elem_of_In, in_map_iff in Hr as (r0 & <- & _).
  destruct (Z.eqb_spec (observation_id r0) oid) as [_|Hne]; [reflexivity|].
  contradiction.
Qed.

Lemma update_annotations_miss (value : string) (oid : Z) (t : table) (r : row) :
  observation_id r <> oid ->
  r ∈ update_annotations value oid t <-> r ∈ t.
Proof.
  unfold update_annotations. intros Hne.
  rewrite !list_elem_of_In, in_map_iff. split.
  - intros (r0 & <- & Hin).
    destruct (Z.eqb_spec (observation_id r0) oid) as [Heq|_]; [|exact Hin].
    cbn in Hne. contradiction.
  - intros Hin. exists r. split; [|exact Hin].
    destruct (Z.eqb_spec (observation_id r) oid); [contradiction|reflexivity].
Qed.

Lemma labels_length (l : list annotation) (ls : list string) :
  labels l = inr ls -> length ls = length l.
Proof.
  revert ls. induction l as [|a l IH]; intros ls; cbn.
  - intros [= <-]. reflexivity.
  - destruct a; try discriminate.
    destruct (labels l) as [e|xs]; [discriminate|].
    intros [= <-]. cbn. f_equal. apply IH. reflexivity.
Qed.

(** C5: on a 200 answer with one record that carries at least one label,
    the turn sets [annotations] of the rows with the item's identifier to
    the labels joined by a comma, commits, and only then acknowledges the
    item; nothing is put back on the queue. *)
Theorem scrape_annotations_commits (net : Z -> nat -> response) (oid : Z)
        (rest : list Z) (s : state) (n : nat) (anns : list annotation)
        (ls : list string) (more : list observation) :
  unfinished s = S n ->
  net oid (attempts_of s oid)
  = Http 200 (Json (Payload (Some 1) (Some (Observation (Some anns) :: more)))) ->
  labels anns = inr ls ->
  ls <> [] ->
  exists s' : state,
    iteration net oid rest s = Some s'
    /\ working s' = update_annotations (PyStr.join "," ls) oid (working s)
    /\ (forall r : row, r ∈ working s' -> observation_id r = oid ->
                        annotations r = Some (PyStr.join "," ls))
    /\ durable s' = working s'
    /\ queue s' = rest
    /\ trace s'
       = (trace s
            ++ [Get oid; Request oid (attempts_of s oid);
                Print ("Scraped " +:+ PyStr.str oid +:+ " - " +:+ PyStr.join "," ls);
                Execute (PyStr.join "," ls) oid; Commit; TaskDone])%list.
Proof.
  intros Hun Hnet Hlab Hne.
  destruct s as [q u w d a t]. unfold attempts_of in *.
  cbn [unfinished attempts working durable trace queue] in *. subst u.
  unfold iteration, request, attempts_of, emit.
  cbn [unfinished attempts working durable trace queue].
  rewrite Hnet.
  cbn [classify Z.eqb Pos.eqb total_results results obs_annotations default].
  change (id anns) with anns. rewrite Hlab.
  destruct ls as [|l ls]; [contradiction|].
  cbn [length Nat.ltb Nat.leb].
  unfold commit, execute, emit, task_done.
  cbn [unfinished attempts working durable trace queue].
  eexists. split; [reflexivity|].
  cbn [unfinished attempts working durable trace queue].
  repeat split.
  - intros r. apply update_annotations_hit.
  - unfold emit. cbn [trace]. rewrite <- !app_assoc. reflexivity.
Qed.

Lemma scrape_annotations_commits_witness :
  exists s' : state,
    iteration
      (fun _ _ => Http 200 (Json (Payload (Some 1)
                     (Some [Observation (Some [Labelled "Alive"; Labelled "Adult"])]))))
      7 [] (State [7] 1 [Row 7 3 "https://h/7/medium.jpg" [] None]
                  [Row 7 3 "https://h/7/medium.jpg" [] None] ∅ [Put 7]) = Some s'
    /\ working s' = [Row 7 3 "https://h/7/medium.jpg" [] (Some "Alive,Adult")]
    /\ durable s' = working s'
    /\ queue s' = [].
Proof.
  destruct (scrape_annotations_commits
              (fun _ _ => Http 200 (Json (Payload (Some 1)
                     (Some [Observation (Some [Labelled "Alive"; Labelled "Adult"])]))))
              7 [] (State [7] 1 [Row 7 3 "https://h/7/medium.jpg" [] None]
                          [Row 7 3 "https://h/7/medium.jpg" [] None] ∅ [Put 7])
              0%nat [Labelled "Alive"; Labelled "Adult"] ["Alive"; "Adult"] []
              eq_refl eq_refl eq_refl ltac:(discriminate))
    as (s' & H1 & H2 & _ & H4 & H5 & _).
  exists s'. repeat split; assumption.
Defined.

(** C4, as amended: on a 200 answer whose record count is not one, the turn
    logs the count, puts the same item at the back of the queue and writes
    nothing; on a 200 answer with one record and no label it writes
    nothing, logs nothing and does not put the item back. *)
Theorem scrape_annotations_precondition (net : Z -> nat -> response) (oid : Z)
        (rest : list Z) (s : state) (n : nat) (data : payload) :
  unfinished s = S n ->
  net oid (attempts_of s oid) = Http 200 (Json data) ->
  (forall k : Z,
      total_results data = Some k -> k <> 1 ->
      exists s' : state,
        iteration net oid rest s = Some s'
        /\ queue s' = (rest ++ [oid])%list
        /\ working s' = working s /\ durable s' = durable s
        /\ trace s'
           = (trace s
                ++ [Get oid; Request oid (attempts_of s oid);
                    Log ("Failed to scrape annotations for " +:+ PyStr.str oid
                           +:+ ": " +:+ PyStr.str k +:+ " results.");
                    Put oid; TaskDone])%list)
  /\ (forall (a : option (list annotation)) (more : list observation),
         total_results data = Some 1 ->
         results data = Some (Observation a :: more) ->
         default [] a = [] ->
         exists s' : state,
           iteration net oid rest s = Some s'
           /\ queue s' = rest
           /\ working s' = working s /\ durable s' = durable s
           /\ trace s'
              = (trace s ++ [Get oid; Request oid (attempts_of s oid); TaskDone])%list).
Proof.
  intros Hun Hnet.
  destruct s as [q u w d a0 t]. unfold attempts_of in *.
  cbn [unfinished attempts working durable trace queue] in *. subst u.
  unfold iteration, request, attempts_of, emit.
  cbn [unfinished attempts working durable trace queue].
  rewrite Hnet. cbn [classify Z.eqb Pos.eqb].
  split.
  - intros k Hk Hne. rewrite Hk.
    destruct (Z.eqb_spec k 1) as [->|_]; [contradiction|].
    unfold put, logging_info, emit, task_done.
    cbn [unfinished attempts working durable trace queue].
    eexists. split; [reflexivity|].
    cbn [unfinished attempts working durable trace queue].
    repeat split. unfold emit. cbn [trace]. rewrite <- !app_assoc. reflexivity.
  - intros a more Hk Hres Hlab. rewrite Hk, Hres. cbn [Z.eqb Pos.eqb obs_annotations].
    rewrite Hlab. cbn [labels length Nat.ltb Nat.leb].
    unfold task_done, emit.
    cbn [unfinished attempts working durable trace queue].
    eexists. split; [reflexivity|].
    cbn [unfinished attempts working durable trace queue].
    repeat split. unfold emit. cbn [trace]. rewrite <- !app_assoc. reflexivity.
Qed.

Lemma scrape_annotations_precondition_witness :
  (exists s' : state,
      iteration (fun _ _ => Http 200 (Json (Payload (Some 0) (Some [])))) 7 [8]
                (State [7; 8] 2 [] [] ∅ []) = Some s'
      /\ queue s' = [8; 7]
      /\ trace s'
         = [Get 7; Request 7 0;
            Log "Failed to scrape annotations for 7: 0 results."; Put 7; TaskDone]).
Proof.
  destruct (proj1 (scrape_annotations_precondition
                     (fun _ _ => Http 200 (Json (Payload (Some 0) (Some []))))
                     7 [8] (State [7; 8] 2 [] [] ∅ []) 1%nat
                     (Payload (Some 0) (Some [])) eq_refl eq_refl)
                  0 eq_refl ltac:(discriminate))
    as (s' & H1 & H2 & _ & _ & H5).
  exists s'. repeat split; assumption.
Defined.

(** C4, as worded, fails on a 200 answer with one record and no label: the
    item is not put back on the queue and nothing is logged. *)
Lemma scrape_annotations_no_label_counterexample :
  exists s' : state,
    iteration
      (fun _ _ => Http 200 (Json (Payload (Some 1) (Some [Observation (Some [])]))))
      7 [] (State [7] 1 [Row 7 3 "https://h/7/medium.jpg" [] None]
                  [Row 7 3 "https://h/7/medium.jpg" [] None] ∅ [Put 7]) = Some s'
    /\ queue s' = []
    /\ unfinished s' = 0%nat
    /\ trace s' = [Put 7; Get 7; Request 7 0; TaskDone]
    /\ durable s' = [Row 7 3 "https://h/7/medium.jpg" [] None].
Proof.
  eexists. split; [vm_compute; reflexivity|]. repeat split.
Qed.

End WorkerTurn.

(** ** The annotation worker empties its queue *)

Section Draining.
Import Store Annotation.

Lemma commits_in_snoc (t : list event) (e : event) :
  commits_in (t ++ [e])%list
  = (commits_in t + match e with Commit => 1 | _ => 0 end)%nat.
Proof.
  induction t as [|x t IH]; [destruct e; reflexivity|].
  cbn [app commits_in]. destruct x; rewrite IH; reflexivity.
Qed.

Lemma commits_settled (r : response) : commits r = true -> settled r = true.
Proof.
  destruct r as [e|status [e|[[n|] [[|o l]|]]]]; cbn; try discriminate.
  destruct (labels _) as [e|[|x xs]]; rewrite ?andb_false_r; try discriminate.
  intros H. exact H.
Qed.

(** What [classify] does to the queue, the counter, the request counts and
    the number of commits. *)
Lemma classify_shape (oid : Z) (r : response) (s : state) :
  queue (classify oid r s) = (if settled r then queue s else (queue s ++ [oid])%list)
  /\ unfinished (classify oid r s)
     = (if settled r then unfinished s else S (unfinished s))
  /\ attempts (classify oid r s) = attempts s
  /\ commits_in (trace (classify oid r s))
     = (commits_in (trace s) + if commits r then 1 else 0)%nat.
Proof.
  assert (forall e, queue (on_exception oid e s) = (queue s ++ [oid])%list
                    /\ unfinished (on_exception oid e s) = S (unfinished s)
                    /\ attempts (on_exception oid e s) = attempts s
                    /\ commits_in (trace (on_exception oid e s))
                       = (commits_in (trace s) + 0)%nat) as Hex.
  { intros e. unfold on_exception, put, logging_info, emit.
    cbn [queue unfinished attempts trace].
    rewrite !commits_in_snoc. repeat split. lia. }
  unfold classify, settled, commits.
  destruct r as [e|status body]; [apply Hex|].
  destruct (Z.eqb_spec status 200) as [->|Hst]; cbn [andb].
  2:{ destruct body as [e|[[n|] [[|o l]|]]];
      unfold put, logging_info, emit; cbn [queue unfinished attempts trace];
      rewrite !commits_in_snoc; repeat split; lia. }
  destruct body as [e|[[n|] res]]; cbn [total_results results]; try apply Hex.
  destruct (Z.eqb_spec n 1) as [->|Hn]; cbn [andb].
  - destruct res as [[|o l]|]; try apply Hex.
    destruct (labels (default [] (obs_annotations o))) as [e|[|x xs]];
      [apply Hex| |].
    + cbn [length Nat.ltb Nat.leb]. repeat split. lia.
    + cbn [length Nat.ltb Nat.leb]. unfold commit, execute, emit.
      cbn [queue unfinished attempts trace].
      rewrite !commits_in_snoc. repeat split. lia.
  - destruct res as [[|o l]|];
      unfold put, logging_info, emit; cbn [queue unfinished attempts trace];
      rewrite !commits_in_snoc; repeat split; lia.
Qed.

(** One turn of the loop on the item at the head of the queue. *)
Lemma iteration_shape (net : Z -> nat -> response) (oid : Z) (rest : list Z)
      (s : state) (u : nat) :
  unfinished s = S u ->
  exists s' : state,
    iteration net oid rest s = Some s'
    /\ queue s' = (if settled (net oid (attempts_of s oid)) then rest
                   else (rest ++ [oid])%list)
    /\ unfinished s' = (if settled (net oid (attempts_of s oid)) then u else S u)
    /\ (forall x : Z,
           attempts_of s' x
           = if decide (x = oid) then S (attempts_of s oid) else attempts_of s x)
    /\ commits_in (trace s')
       = (commits_in (trace s)
          + if commits (net oid (attempts_of s oid)) then 1 else 0)%nat.
Proof.
  intros Hu. unfold iteration, request.
  set (s0 := emit (Get oid) (State rest (unfinished s) (working s) (durable s)
                                  (attempts s) (trace s))).
  assert (attempts_of s0 oid = attempts_of s oid) as Ha by reflexivity.
  rewrite Ha.
  set (r := net oid (attempts_of s oid)).
  set (s1 := emit (Request oid (attempts_of s oid))
                  (State (queue s0) (unfinished s0) (working s0) (durable s0)
                         (<[oid := S (attempts_of s oid)]> (attempts s0)) (trace s0))).
  destruct (classify_shape oid r s1) as (Hq & Hun & Hat & Hc).
  unfold task_done.
  assert (unfinished s1 = S u) as Hu1 by exact Hu.
  assert (queue s1 = rest) as Hq1 by reflexivity.
  assert (commits_in (trace s1) = commits_in (trace s)) as Hc1.
  { subst s1 s0. unfold emit. cbn [trace]. rewrite !commits_in_snoc. lia. }
  rewrite Hu1 in Hun. rewrite Hq1 in Hq. rewrite Hc1 in Hc.
  assert (exists v, unfinished (classify oid r s1) = S v
                    /\ v = if settled r then u else S u) as (v & Hv & Hvu).
  { rewrite Hun. destruct (settled r); eauto. }
  rewrite Hv. eexists. split; [reflexivity|].
  unfold emit. cbn [queue unfinished attempts trace].
  rewrite commits_in_snoc, Hc, Hq. repeat split; [exact Hvu| |lia].
  intros x. unfold attempts_of. cbn [attempts]. rewrite Hat.
  subst s1 s0. unfold emit. cbn [attempts].
  destruct (decide (x = oid)) as [->|Hne].
  - rewrite lookup_insert_eq. reflexivity.
  - rewrite lookup_insert_ne by congruence. reflexivity.
Qed.

(** The counter of unfinished tasks covers the queue, so [task_done] never
    raises. *)
Lemma scrape_annotations_not_raised (net : Z -> nat -> response) (fuel : nat)
      (s : state) :
  (length (queue s) <= unfinished s)%nat ->
  raised (scrape_annotations net fuel s) = false.
Proof.
  revert s. induction fuel as [|fuel IH]; intros s Hle;
    cbn [scrape_annotations]; [reflexivity|].
  destruct (queue s) as [|oid rest] eqn:Hq; [reflexivity|].
  cbn [length] in Hle.
  destruct (unfinished s) as [|u] eqn:Hu; [lia|].
  destruct (iteration_shape net oid rest s u Hu) as (s' & -> & Hq' & Hu' & _).
  apply IH. rewrite Hq', Hu'.
  destruct (settled _); rewrite ?length_app; cbn [length]; lia.
Qed.

Lemma enqueue_all_shape (ids : list Z) (s : state) :
  queue (enqueue_all ids s) = (queue s ++ ids)%list
  /\ unfinished (enqueue_all ids s) = (unfinished s + length ids)%nat
  /\ attempts (enqueue_all ids s) = attempts s
  /\ working (enqueue_all ids s) = working s
  /\ commits_in (trace (enqueue_all ids s)) = commits_in (trace s).
Proof.
  unfold enqueue_all. revert s. induction ids as [|x ids IH]; intros s.
  - cbn. rewrite app_nil_r. repeat split. lia.
  - cbn [fold_left]. destruct (IH (put x s)) as (H1 & H2 & H3 & H4 & H5).
    rewrite H1, H2, H3, H4, H5. unfold put, emit.
    cbn [queue unfinished attempts working trace length].
    rewrite commits_in_snoc, <- app_assoc. repeat split. all: cbn; lia.
Qed.

Lemma turns_cons (n : nat) (ns : list nat) : turns (n :: ns) = S (n + turns ns).
Proof. reflexivity. Qed.

Lemma turns_snoc (ns : list nat) (n : nat) :
  turns (ns ++ [n])%list = S (n + turns ns).
Proof.
  induction ns as [|k ns IH]; [cbn; lia|].
  cbn [app]. rewrite !turns_cons, IH. lia.
Qed.

Lemma Forall2_impl_elem {A B : Type} (P Q : A -> B -> Prop) (l : list A)
      (k : list B) :
  Forall2 P l k -> (forall x y, x ∈ l -> P x y -> Q x y) -> Forall2 Q l k.
Proof.
  induction 1 as [|x y l k Hxy _ IH]; intros Himp; constructor.
  - apply Himp; [left|exact Hxy].
  - apply IH. intros a b Ha. apply Himp. right. exact Ha.
Qed.

(** Given enough turns, the worker commits every item of a queue without
    duplicates whose items are each committed after finitely many failures,
    and then waits on the empty queue. *)
Lemma scrape_annotations_drains (net : Z -> nat -> response) (ns : list nat)
      (s : state) (fuel : nat) :
  NoDup (queue s) ->
  unfinished s = length (queue s) ->
  Forall2 (fun oid n => settles_in net oid (attempts_of s oid) n = true) (queue s) ns ->
  (turns ns < fuel)%nat ->
  exists s' : state,
    scrape_annotations net fuel s = Blocked s'
    /\ queue s' = [] /\ unfinished s' = 0%nat
    /\ commits_in (trace s') = (commits_in (trace s) + length (queue s))%nat.
Proof.
  remember (turns ns) as m eqn:Hm.
  revert ns s fuel Hm.
  induction m as [m IH] using lt_wf_ind.
  intros ns s fuel Hm Hnd Hun Hall Hfuel.
  destruct fuel as [|fuel]; [lia|]. cbn [scrape_annotations].
  destruct (queue s) as [|oid rest] eqn:Hq.
  - exists s. cbn [length] in *. repeat split; [exact Hq|exact Hun|lia].
  - destruct ns as [|n ns]; [inversion Hall|].
    apply Forall2_cons in Hall as [Hhead Hall].
    apply NoDup_cons in Hnd as [Hnotin Hnd].
    cbn [length] in Hun.
    destruct (iteration_shape net oid rest s _ Hun) as (s' & -> & Hq' & Hu' & Hat & Hc).
    assert (Forall2 (fun x k => settles_in net x (attempts_of s' x) k = true) rest ns)
      as Hrest.
    { eapply Forall2_impl_elem; [exact Hall|].
      intros x k Hx Hs. cbn beta. rewrite Hat.
      destruct (decide (x = oid)) as [->|_]; [|exact Hs].
      contradiction. }
    rewrite turns_cons in Hm.
    destruct n as [|n]; cbn [settles_in] in Hhead.
    + rewrite Hhead in Hc. rewrite (commits_settled _ Hhead) in Hq', Hu'.
      destruct (IH (turns ns) ltac:(lia) ns s' fuel eq_refl)
        as (s2 & Hrun & Hq2 & Hu2 & Hc2).
      * rewrite Hq'. exact Hnd.
      * rewrite Hq', Hu'. reflexivity.
      * rewrite Hq'. exact Hrest.
      * lia.
      * exists s2. rewrite Hrun, Hc2, Hc, Hq'. cbn [length]. repeat split; try assumption.
        lia.
    + apply andb_true_iff in Hhead as [Hfail Hnext].
      apply negb_true_iff in Hfail.
      assert (commits (net oid (attempts_of s oid)) = false) as Hnc.
      { destruct (commits _) eqn:E; [|reflexivity].
        apply commits_settled in E. congruence. }
      rewrite Hfail in Hq', Hu'. rewrite Hnc in Hc.
      destruct (IH (turns (ns ++ [n])%list) ltac:(rewrite turns_snoc; lia)
                   (ns ++ [n])%list s' fuel eq_refl)
        as (s2 & Hrun & Hq2 & Hu2 & Hc2).
      * rewrite Hq'. apply NoDup_app. split; [exact Hnd|].
        split; [|apply NoDup_singleton].
        intros x Hx Hx'. apply list_elem_of_singleton in Hx' as ->. contradiction.
      * rewrite Hq', Hu', length_app. cbn. lia.
      * rewrite Hq'. apply Forall2_app; [exact Hrest|].
        constructor; [|constructor].
        rewrite Hat. rewrite decide_True by reflexivity. exact Hnext.
      * rewrite turns_snoc. lia.
      * exists s2. rewrite Hrun, Hc2, Hc, Hq', length_app. cbn [length].
        repeat split; try assumption. lia.
Qed.

(** The run on a list of distinct identifiers, each answered with a
    committable record after finitely many failures: every item is
    committed once, the queue is empty and acknowledged, and the call still
    does not return. *)
Lemma scrape_annotations_from_ids_drains (net : Z -> nat -> response)
      (ids : list Z) (ns : list nat) (db : table) (fuel : nat) :
  NoDup ids ->
  Forall2 (fun oid n => settles_in net oid 0 n = true) ids ns ->
  (turns ns < fuel)%nat ->
  exists s' : state,
    scrape_annotations_from_ids net fuel ids db = Blocked s'
    /\ queue s' = [] /\ unfinished s' = 0%nat
    /\ commits_in (trace s') = length ids.
Proof.
  intros Hnd Hall Hfuel.
  unfold scrape_annotations_from_ids, scrape_annotations_from_ids_tail.
  destruct (enqueue_all_shape ids (initial db)) as (Hq & Hu & Ha & _ & Hc).
  cbn [initial queue unfinished attempts trace app commits_in Nat.add] in Hq, Hu, Ha, Hc.
  destruct (scrape_annotations_drains net ns (enqueue_all ids (initial db)) fuel)
    as (s' & Hrun & Hq' & Hu' & Hc').
  - rewrite Hq. exact Hnd.
  - rewrite Hq, Hu. reflexivity.
  - rewrite Hq. eapply Forall2_impl; [exact Hall|].
    intros x k Hs. unfold attempts_of. rewrite Ha, lookup_empty. exact Hs.
  - exact Hfuel.
  - exists s'. rewrite Hrun. cbn [bind]. rewrite Hc', Hc, Hq.
    repeat split; assumption.
Qed.

End Draining.

(** ** The annotation run as a whole *)

Section AnnotationRun.
Import Store Annotation.

Lemma scrape_annotations_not_returned (net : Z -> nat -> response) (fuel : nat)
      (s : state) :
  returned (scrape_annotations net fuel s) = false.
Proof.
  revert s. induction fuel as [|fuel IH]; intros s; cbn [scrape_annotations]; [reflexivity|].
  destruct (queue s) as [|oid rest]; [reflexivity|].
  destruct (iteration net oid rest s) as [s'|]; [apply IH|reflexivity].
Qed.

(** C2: the run of [scrape_annotations_from_ids] does not return, whatever
    the list of identifiers, the answers of the network and the number of
    turns it is given; nor does it raise: it is waiting on the queue or
    still at work. *)
Theorem scrape_annotations_from_ids_never_returns (net : Z -> nat -> response)
        (fuel : nat) (ids : list Z) (db : table) :
  returned (scrape_annotations_from_ids net fuel ids db) = false
  /\ raised (scrape_annotations_from_ids net fuel ids db) = false.
Proof.
  unfold scrape_annotations_from_ids, scrape_annotations_from_ids_tail.
  pose proof (scrape_annotations_not_returned net fuel (enqueue_all ids (initial db))) as H.
  pose proof (scrape_annotations_not_raised net fuel (enqueue_all ids (initial db))) as R.
  destruct (enqueue_all_shape ids (initial db)) as (Hq & Hu & _).
  rewrite Hq, Hu in R. cbn [initial queue unfinished app Nat.add] in R.
  specialize (R (le_n _)).
  destruct (scrape_annotations net fuel (enqueue_all ids (initial db)));
    cbn in *; split; congruence.
Qed.

(** With one item that is answered at once, the worker commits, finds the
    queue empty with every item acknowledged, and waits on it for good. *)
Example scrape_annotations_from_ids_blocks :
  scrape_annotations_from_ids
    (fun _ _ => Http 200 (Json (Payload (Some 1) (Some [Observation (Some [Labelled "Alive"])]))))
    5 [7] [Row 7 3 "https://h/7/medium.jpg" [] None]
  = Blocked (State [] 0 [Row 7 3 "https://h/7/medium.jpg" [] (Some "Alive")]
                   [Row 7 3 "https://h/7/medium.jpg" [] (Some "Alive")]
                   {[ 7 := 1%nat ]}
                   [Put 7; Get 7; Request 7 0; Print "Scraped 7 - Alive";
                    Execute "Alive" 7; Commit; TaskDone]).
Proof. vm_compute. reflexivity. Qed.

Example scrape_annotations_from_ids_blocks_on_empty (net : Z -> nat -> response)
        (fuel : nat) (db : table) :
  scrape_annotations_from_ids net (S fuel) [] db = Blocked (initial db).
Proof. reflexivity. Qed.

(** Two items, the second answered with no match first: both end up
    committed, nothing is left on the queue, and the call is waiting. *)
Example scrape_annotations_from_ids_retry :
  exists s : state,
    scrape_annotations_from_ids
      (fun oid attempt =>
         if oid =? 1
         then Http 200 (Json (Payload (Some 1) (Some [Observation (Some [Labelled "wild"])])))
         else if (attempt =? 0)%nat
              then Http 200 (Json (Payload (Some 0) (Some [])))
              else Http 200 (Json (Payload (Some 1)
                                     (Some [Observation (Some [Labelled "captive"])]))))
      4 [1; 2]
      [Row 1 5 "https://h/1/medium.jpg" [] None; Row 2 5 "https://h/2/medium.jpg" [] None]
    = Blocked s
    /\ durable s = [Row 1 5 "https://h/1/medium.jpg" [] (Some "wild");
                    Row 2 5 "https://h/2/medium.jpg" [] (Some "captive")]
    /\ queue s = [] /\ unfinished s = 0%nat /\ commits_in (trace s) = 2%nat.
Proof. eexists. split; [vm_compute; reflexivity|]. repeat split. Qed.


(** On a list of pairs the batch write of [main] would change the rows on
    disk; on [None] it changes nothing. *)
Example main_tail_on_a_list :
  durable (final_state
             (main_tail (Returned (PyPairs [("Alive", 7)])
                           (initial [Row 7 3 "https://h/7/medium.jpg" [] None]))))
  = [Row 7 3 "https://h/7/medium.jpg" [] (Some "Alive")]
  /\ durable (final_state
                (main_tail (Returned PyNone
                              (initial [Row 7 3 "https://h/7/medium.jpg" [] None]))))
     = [Row 7 3 "https://h/7/medium.jpg" [] None].
Proof. split; reflexivity. Qed.

End AnnotationRun.

(** ** The image downloads under the event loop *)

Section ImageRun.
Import Store Scrape.

Lemma spawn_creates (urls : list item) (s : loop) :
  1 <= sem_value s ->
  spawn urls s
  = Some (Loop (sem_value s) (tasks s ++ created urls) (files s) (log s)
               (requested s) (high_water s)).
Proof.
  revert s. induction urls as [|it urls IH]; intros s Hsem.
  - cbn. rewrite app_nil_r. destruct s; reflexivity.
  - cbn [spawn]. unfold acquire.
    destruct (Z.ltb_spec 0 (sem_value s)) as [_|Hle]; [|lia].
    rewrite IH by (cbn; lia). cbn.
    rewrite <- app_assoc. do 2 f_equal. lia.
Qed.

Lemma in_flight_flying_created (pre post : list item) (s : loop) :
  tasks s = (flying pre ++ created post)%list -> in_flight s = length pre.
Proof.
  unfold in_flight. intros ->. rewrite filter_app, length_app.
  assert (forall l, length (filter (fun t : item * task_state => snd t = InFlight) (flying l))
                    = length l) as Hf.
  { induction l as [|x l IHl]; [reflexivity|].
    cbn [flying map]. rewrite filter_cons_True by reflexivity.
    cbn [length]. f_equal. exact IHl. }
  assert (forall l, length (filter (fun t : item * task_state => snd t = InFlight) (created l))
                    = 0%nat) as Hc.
  { induction l as [|x l IHl]; [reflexivity|].
    cbn [created map]. rewrite filter_cons_False by discriminate. exact IHl. }
  rewrite Hf, Hc. lia.
Qed.

Lemma start_from_flying (post pre : list item) (s : loop) :
  tasks s = (flying pre ++ created post)%list ->
  high_water s = length pre ->
  start_from (length pre) (length post) s
  = Loop (sem_value s) (flying (pre ++ post)) (files s) (log s)
         (requested s ++ post) (length pre + length post).
Proof.
  revert pre s. induction post as [|it post IH]; intros pre s Ht Hh.
  - cbn. rewrite !app_nil_r in *. rewrite Nat.add_0_r, <- Ht, <- Hh.
    destruct s; reflexivity.
  - cbn [length start_from].
    assert (tasks s !! length pre = Some (it, Created)) as Hlook.
    { rewrite Ht. unfold flying. rewrite lookup_app_r by (rewrite length_map; lia).
      rewrite length_map, Nat.sub_diag. reflexivity. }
    assert (<[length pre := (it, InFlight)]> (tasks s)
            = (flying (pre ++ [it]) ++ created post)%list) as Hins.
    { rewrite Ht. unfold flying at 1.
      rewrite insert_app_r_alt by (rewrite length_map; lia).
      rewrite length_map, Nat.sub_diag. cbn.
      unfold flying. rewrite map_app, <- app_assoc. reflexivity. }
    unfold start. rewrite Hlook. cbn [sem_value tasks files log requested high_water].
    replace (S (length pre)) with (length (pre ++ [it])) by (rewrite length_app; cbn; lia).
    rewrite IH.
    + cbn [sem_value tasks files log requested high_water].
      rewrite <- !app_assoc, length_app. cbn. f_equal. lia.
    + exact Hins.
    + cbn [high_water].
      rewrite (in_flight_flying_created (pre ++ [it]) post) by exact Hins.
      rewrite Hh, length_app. cbn. lia.
Qed.

Lemma complete_frame (net : nat -> string -> response) (i : nat) (s : loop) :
  requested (complete net i s) = requested s
  /\ high_water (complete net i s) = high_water s
  /\ sem_value (complete net i s) = sem_value s
  /\ map fst (tasks (complete net i s)) = map fst (tasks s).
Proof.
  unfold complete.
  destruct (tasks s !! i) as [[[[image_id taxon] url] st]|] eqn:Hl; [|tauto].
  assert (forall r, requested (download_image image_id taxon url r s) = requested s
                    /\ high_water (download_image image_id taxon url r s) = high_water s
                    /\ sem_value (download_image image_id taxon url r s) = sem_value s
                    /\ tasks (download_image image_id taxon url r s) = tasks s) as Hd.
  { intros r. unfold download_image.
    destruct r as [e|status body]; [cbn; tauto|].
    destruct (status =? 200); [|cbn; tauto].
    destruct body; cbn; tauto. }
  destruct st; try tauto.
  destruct (Hd (net i url)) as (H1 & H2 & H3 & H4).
  cbn [requested high_water sem_value tasks]. rewrite H4.
  repeat split; try assumption.
  rewrite list_fmap_insert. cbn [fst].
  apply list_insert_id. rewrite list_lookup_fmap, Hl. reflexivity.
Qed.

Lemma complete_all_frame (net : nat -> string -> response) (arrivals : list nat)
      (s : loop) :
  requested (complete_all net arrivals s) = requested s
  /\ high_water (complete_all net arrivals s) = high_water s
  /\ sem_value (complete_all net arrivals s) = sem_value s
  /\ map fst (tasks (complete_all net arrivals s)) = map fst (tasks s).
Proof.
  revert s. unfold complete_all.
  induction arrivals as [|i arrivals IH]; intros s; [cbn; tauto|].
  cbn [fold_left].
  destruct (IH (complete net i s)) as (H1 & H2 & H3 & H4).
  destruct (complete_frame net i s) as (G1 & G2 & G3 & G4).
  rewrite H1, H2, H3, H4. tauto.
Qed.

Lemma download_images_gathered (net : nat -> string -> response)
      (arrivals : list nat) (urls : list item) (image_size : string)
      (semaphore : Z) (dir : image_dir) :
  1 <= semaphore ->
  exists s : loop,
    (download_images net arrivals urls image_size semaphore dir = Returned tt s
     \/ download_images net arrivals urls image_size semaphore dir = Running s)
    /\ requested s = urls
    /\ high_water s = length urls
    /\ map fst (tasks s) = urls.
Proof.
  intros Hsem. unfold download_images.
  destruct (Z.ltb_spec semaphore 0) as [Hneg|_]; [lia|].
  rewrite spawn_creates by (cbn; lia).
  cbn [initial sem_value tasks files log requested high_water app].
  unfold start_all. cbn [tasks].
  assert (length (created urls) = length urls) as Hlen by apply length_map.
  rewrite !Hlen.
  pose proof (start_from_flying urls [] (Loop semaphore (created urls) dir [] [] 0)
                eq_refl eq_refl) as Hs.
  cbn [sem_value tasks files log requested high_water app length Nat.add] in Hs.
  rewrite Hs. clear Hs.
  match goal with
  | |- context [complete_all net arrivals ?s0] =>
      destruct (complete_all_frame net arrivals s0) as (H1 & H2 & H3 & H4);
      set (s1 := complete_all net arrivals s0) in *
  end.
  cbn [requested high_water tasks] in H1, H2, H4.
  assert (map fst (flying urls) = urls) as Hfst.
  { unfold flying. rewrite map_map. cbn. apply map_id. }
  rewrite Hfst in H4.
  destruct (pending s1) eqn:Hp.
  - eexists. split; [left; reflexivity|]. cbn. tauto.
  - eexists. split; [right; reflexivity|]. tauto.
Qed.

(** C3: with a semaphore of at least one, every request of the work list is
    in flight at the same time: the high-water mark of [download_images] is
    the length of the list, whatever the bound. *)
Theorem download_images_high_water (net : nat -> string -> response)
        (arrivals : list nat) (urls : list item) (image_size : string)
        (semaphore : Z) (dir : image_dir) :
  1 <= semaphore ->
  high_water (final_state (download_images net arrivals urls image_size semaphore dir))
  = length urls.
Proof.
  intros Hsem.
  destruct (download_images_gathered net arrivals urls image_size semaphore dir Hsem)
    as (s & [-> | ->] & _ & H & _); exact H.
Qed.

(** Two items under a semaphore of one: both requests are in flight
    together. *)
Lemma download_images_high_water_witness :
  1 <= 1
  /\ high_water
       (final_state
          (download_images (fun _ _ => Http 200 (Body [])) []
             [(1, 5, "https://h/1/medium.jpg"); (2, 5, "https://h/2/medium.jpg")]
             "medium" 1 ∅))
     = 2%nat.
Proof.
  split; [lia|].
  apply (download_images_high_water _ _
           [(1, 5, "https://h/1/medium.jpg"); (2, 5, "https://h/2/medium.jpg")]).
  lia.
Defined.

Lemma download_image_tasks (image_id taxon : Z) (url : string) (r : response)
      (s : loop) :
  tasks (download_image image_id taxon url r s) = tasks s.
Proof.
  unfold download_image. destruct r as [e|status body]; [reflexivity|].
  destruct (status =? 200); [|reflexivity]. destruct body; reflexivity.
Qed.

Lemma download_image_failed (image_id taxon : Z) (url : string) (r : response)
      (s : loop) :
  failed r ->
  files (download_image image_id taxon url r s) = files s
  /\ log (download_image image_id taxon url r s)
     = (log s ++ ["Failed to download " +:+ PyStr.str image_id +:+ " for taxon "
                    +:+ PyStr.str taxon +:+ ": " +:+ failure_text r])%list.
Proof.
  unfold download_image, failed, failure_text.
  destruct r as [e|status body]; [intros _; split; reflexivity|].
  intros Hst. destruct (Z.eqb_spec status 200) as [->|_]; [contradiction|].
  split; reflexivity.
Qed.

Lemma download_image_files (image_id taxon : Z) (url : string) (r : response)
      (s : loop) (name : string) :
  files (download_image image_id taxon url r s) !! name <> files s !! name ->
  (exists body, r = Http 200 body) /\ name = PyStr.str image_id +:+ Claimed.url_ext url.
Proof.
  unfold download_image, Claimed.url_ext.
  destruct r as [e|status body]; [intros H; contradiction H; reflexivity|].
  destruct (Z.eqb_spec status 200) as [->|_];
    [|intros H; contradiction H; reflexivity].
  intros H. split; [eauto|].
  destruct (decide (name = PyStr.str image_id
                           +:+ snd (PyStr.splitext (PyStr.basename url)))) as [->|Hne];
    [reflexivity|].
  contradiction H.
  destruct body; cbn [files logging_info write_file];
    rewrite ?lookup_insert_ne by congruence; reflexivity.
Qed.

Lemma complete_tasks (net : nat -> string -> response) (i : nat) (s : loop) :
  tasks (complete net i s)
  = match tasks s !! i with
    | Some (it, InFlight) => <[i := (it, Done)]> (tasks s)
    | _ => tasks s
    end.
Proof.
  unfold complete.
  destruct (tasks s !! i) as [[[[image_id taxon] url] st]|]; [|reflexivity].
  destruct st; try reflexivity.
  cbn [tasks]. rewrite download_image_tasks. reflexivity.
Qed.

Lemma complete_started (net : nat -> string -> response) (i : nat) (s : loop) :
  started s -> started (complete net i s).
Proof.
  unfold started. intros Hs j it st. rewrite complete_tasks.
  destruct (tasks s !! i) as [[it0 st0]|] eqn:Hi; [|apply Hs].
  destruct st0; try apply Hs.
  destruct (decide (i = j)) as [->|Hne].
  - rewrite list_lookup_insert_eq by (eapply lookup_lt_Some; eauto).
    intros [= <- <-]. discriminate.
  - rewrite list_lookup_insert_ne by exact Hne. apply Hs.
Qed.

Lemma complete_done_stays (net : nat -> string -> response) (i j : nat) (s : loop) :
  done_at j s -> done_at j (complete net i s).
Proof.
  unfold done_at. intros [it Hj]. rewrite complete_tasks.
  destruct (tasks s !! i) as [[it0 st0]|] eqn:Hi; [|eauto].
  destruct st0; eauto.
  destruct (decide (i = j)) as [->|Hne]; [congruence|].
  rewrite list_lookup_insert_ne by exact Hne. eauto.
Qed.

Lemma complete_done (net : nat -> string -> response) (i : nat) (s : loop) :
  started s -> (i < length (tasks s))%nat -> done_at i (complete net i s).
Proof.
  unfold done_at. intros Hs Hlt. rewrite complete_tasks.
  destruct (lookup_lt_is_Some_2 _ _ Hlt) as [[it st] Hi]. rewrite Hi.
  destruct st.
  - exfalso. exact (Hs _ _ _ Hi eq_refl).
  - exists it. apply list_lookup_insert_eq. exact Hlt.
  - eauto.
Qed.

Lemma complete_length (net : nat -> string -> response) (i : nat) (s : loop) :
  length (tasks (complete net i s)) = length (tasks s).
Proof.
  rewrite <- (length_map fst), <- (length_map fst (tasks s)).
  f_equal. apply complete_frame.
Qed.

Lemma complete_all_done (net : nat -> string -> response) (arrivals : list nat)
      (s : loop) (j : nat) :
  started s -> (j < length (tasks s))%nat ->
  (j ∈ arrivals \/ done_at j s) ->
  done_at j (complete_all net arrivals s).
Proof.
  revert s. unfold complete_all.
  induction arrivals as [|i arrivals IH]; intros s Hs Hlt Hj.
  - destruct Hj as [Hj|Hj]; [|exact Hj]. apply elem_of_nil in Hj. contradiction.
  - cbn [fold_left]. apply IH.
    + apply complete_started. exact Hs.
    + rewrite complete_length. exact Hlt.
    + destruct Hj as [Hj|Hj].
      * apply elem_of_cons in Hj as [->|Hj]; [right|left; exact Hj].
        apply complete_done; assumption.
      * right. apply complete_done_stays. exact Hj.
Qed.

Lemma pending_nil (s : loop) :
  (forall j : nat, (j < length (tasks s))%nat -> done_at j s) -> pending s = [].
Proof.
  unfold pending, done_at. intros H.
  destruct (filter (fun t : item * task_state => snd t <> Done) (tasks s))
    as [|[it st] rest] eqn:Hf; [reflexivity|].
  assert ((it, st) ∈ filter (fun t : item * task_state => snd t <> Done) (tasks s))
    as Hin by (rewrite Hf; left).
  apply list_elem_of_filter in Hin as [Hne Hin].
  apply list_elem_of_lookup in Hin as [j Hj].
  destruct (H j (lookup_lt_Some _ _ _ Hj)) as [it' Hd].
  rewrite Hj in Hd. injection Hd as _ ->. cbn in Hne. contradiction.
Qed.

Lemma complete_all_files (net : nat -> string -> response) (arrivals : list nat)
      (s : loop) (name : string) :
  files (complete_all net arrivals s) !! name <> files s !! name ->
  exists (i : nat) (image_id taxon : Z) (url : string) (body : read_result),
    map fst (tasks s) !! i = Some (image_id, taxon, url)
    /\ net i url = Http 200 body
    /\ name = PyStr.str image_id +:+ Claimed.url_ext url.
Proof.
  revert s. unfold complete_all.
  induction arrivals as [|i arrivals IH]; intros s H; [contradiction H; reflexivity|].
  cbn [fold_left] in H.
  destruct (decide (files (complete net i s) !! name = files s !! name)) as [Heq|Hne].
  - rewrite <- Heq in H. apply IH in H.
    destruct (complete_frame net i s) as (_ & _ & _ & Hf).
    rewrite Hf in H. exact H.
  - clear H IH. unfold complete in Hne.
    destruct (tasks s !! i) as [[[[image_id taxon] url] st]|] eqn:Hi;
      [|contradiction Hne; reflexivity].
    destruct st; try (contradiction Hne; reflexivity).
    cbn [files] in Hne.
    apply download_image_files in Hne as ([body Hb] & ->).
    exists i, image_id, taxon, url, body. repeat split; [|exact Hb].
    rewrite list_lookup_fmap, Hi. reflexivity.
Qed.

(** C1, as amended: [download_images] issues one request per listed item
    and no more; it returns, with nothing pending, once every request is
    answered; a file of the image directory changes only through a 200
    answer to the item it is named after; and a failed attempt, by status or
    by an exception of the request, writes no file and logs one record. *)
Theorem download_images_attempts_once (net : nat -> string -> response)
        (arrivals : list nat) (urls : list item) (image_size : string)
        (semaphore : Z) (dir : image_dir) :
  1 <= semaphore ->
  requested (final_state (download_images net arrivals urls image_size semaphore dir))
  = urls
  /\ ((forall i : nat, (i < length urls)%nat -> i ∈ arrivals) ->
      returned (download_images net arrivals urls image_size semaphore dir) = true
      /\ pending (final_state
                    (download_images net arrivals urls image_size semaphore dir)) = [])
  /\ (forall name : string,
         files (final_state (download_images net arrivals urls image_size semaphore dir))
           !! name <> dir !! name ->
         exists (i : nat) (image_id taxon : Z) (url : string) (body : read_result),
           urls !! i = Some (image_id, taxon, url)
           /\ net i url = Http 200 body
           /\ name = PyStr.str image_id +:+ Claimed.url_ext url)
  /\ (forall (image_id taxon : Z) (url : string) (r : response) (s : loop),
         failed r ->
         files (download_image image_id taxon url r s) = files s
         /\ log (download_image image_id taxon url r s)
            = (log s ++ ["Failed to download " +:+ PyStr.str image_id +:+ " for taxon "
                           +:+ PyStr.str taxon +:+ ": " +:+ failure_text r])%list).
Proof.
  intros Hsem.
  split; [|split; [|split]].
  - destruct (download_images_gathered net arrivals urls image_size semaphore dir Hsem)
      as (s & [-> | ->] & H & _); exact H.
  - intros Hall. unfold download_images.
    destruct (Z.ltb_spec semaphore 0) as [Hneg|_]; [lia|].
    rewrite spawn_creates by (cbn; lia).
    cbn [initial sem_value tasks files log requested high_water app].
    unfold start_all. cbn [tasks].
    assert (length (created urls) = length urls) as Hlen by apply length_map.
    rewrite !Hlen.
    pose proof (start_from_flying urls [] (Loop semaphore (created urls) dir [] [] 0)
                  eq_refl eq_refl) as Hs.
    cbn [sem_value tasks files log requested high_water app length Nat.add] in Hs.
    rewrite Hs. clear Hs.
    match goal with
    | |- context [complete_all net arrivals ?s0] => set (s0' := s0)
    end.
    assert (pending (complete_all net arrivals s0') = []) as Hp.
    { apply pending_nil. intros j Hj.
      assert (length (tasks (complete_all net arrivals s0')) = length urls) as Hl.
      { rewrite <- (length_map fst).
        destruct (complete_all_frame net arrivals s0') as (_ & _ & _ & ->).
        subst s0'. cbn [tasks]. unfold flying. rewrite !length_map. reflexivity. }
      rewrite Hl in Hj.
      apply complete_all_done.
      - subst s0'. intros k it st. cbn [tasks]. unfold flying.
        rewrite list_lookup_fmap. destruct (urls !! k); cbn; [|discriminate].
        intros [= <- <-]. discriminate.
      - subst s0'. cbn [tasks]. unfold flying. rewrite length_map. exact Hj.
      - left. apply Hall. exact Hj. }
    rewrite Hp. cbn. split; [reflexivity|]. exact Hp.
  - intros name. unfold download_images.
    destruct (Z.ltb_spec semaphore 0) as [Hneg|_]; [lia|].
    rewrite spawn_creates by (cbn; lia).
    cbn [initial sem_value tasks files log requested high_water app].
    unfold start_all. cbn [tasks].
    assert (length (created urls) = length urls) as Hlen by apply length_map.
    rewrite !Hlen.
    pose proof (start_from_flying urls [] (Loop semaphore (created urls) dir [] [] 0)
                  eq_refl eq_refl) as Hs.
    cbn [sem_value tasks files log requested high_water app length Nat.add] in Hs.
    rewrite Hs. clear Hs.
    match goal with
    | |- context [complete_all net arrivals ?s0] => set (s0' := s0)
    end.
    intros H.
    assert (files (complete_all net arrivals s0') !! name <> files s0' !! name) as H'.
    { destruct (pending (complete_all net arrivals s0')); exact H. }
    apply complete_all_files in H'.
    subst s0'. cbn [tasks] in H'. unfold flying in H'.
    rewrite map_map in H'. cbn [fst] in H'. rewrite map_id in H'. exact H'.
  - intros image_id taxon url r s. apply download_image_failed.
Qed.

Lemma download_images_attempts_once_witness :
  1 <= 10
  /\ requested
       (final_state
          (download_images
             (fun i _ => if (i =? 0)%nat then Http 404 (Body []) else Http 200 (Body [Byte.x2a]))
             [1%nat; 0%nat]
             [(1, 5, "https://h/1/medium.jpg"); (2, 5, "https://h/2/medium.jpg")]
             "medium" 10 ∅))
     = [(1, 5, "https://h/1/medium.jpg"); (2, 5, "https://h/2/medium.jpg")].
Proof.
  split; [lia|].
  apply (download_images_attempts_once
           (fun i _ => if (i =? 0)%nat then Http 404 (Body []) else Http 200 (Body [Byte.x2a]))
           [1%nat; 0%nat]
           [(1, 5, "https://h/1/medium.jpg"); (2, 5, "https://h/2/medium.jpg")]
           "medium" 10 ∅).
  lia.
Defined.

(** C1, as worded, fails on an item answered with 404: the run returns
    with the item requested once, not written and not pending. *)
Lemma download_image_not_requeued_counterexample :
  download_images (fun _ _ => Http 404 (Body [])) [0%nat]
    [(1, 5, "https://h/1/medium.jpg")] "medium" 10 ∅
  = Returned tt
      (Loop 10 [((1, 5, "https://h/1/medium.jpg"), Done)] ∅
            ["Failed to download 1 for taxon 5: 404"; "Downloaded medium images."]
            [(1, 5, "https://h/1/medium.jpg")] 1)
  /\ pending
       (final_state
          (download_images (fun _ _ => Http 404 (Body [])) [0%nat]
             [(1, 5, "https://h/1/medium.jpg")] "medium" 10 ∅)) = [].
Proof. split; vm_compute; reflexivity. Qed.

End ImageRun.

(** ** Strings: the extension survives the size substitution *)

Section Extensions.
Import DotScan.

Lemma app_cons (a : ascii) (v w : string) : String a v +:+ w = String a (v +:+ w).
Proof. reflexivity. Qed.

Lemma app_length (v w : string) :
  String.length (v +:+ w) = (String.length v + String.length w)%nat.
Proof.
  induction v as [|a v IH]; [reflexivity|].
  rewrite app_cons. cbn [String.length]. rewrite IH. reflexivity.
Qed.

Lemma app_snoc (v : string) (c : ascii) (w : string) :
  (v +:+ String c EmptyString) +:+ w = v +:+ String c w.
Proof.
  induction v as [|a v IH]; [reflexivity|].
  rewrite !app_cons. f_equal. exact IH.
Qed.

Lemma app_length_drop (v w : string) : PyStr.drop (String.length v) (v +:+ w) = w.
Proof. induction v as [|a v IH]; [destruct w; reflexivity|exact IH]. Qed.

Lemma app_length_take (v w : string) : PyStr.take (String.length v) (v +:+ w) = v.
Proof. induction v as [|a v IH]; [destruct w; reflexivity|cbn; f_equal; exact IH]. Qed.

Lemma rfind_none (c : ascii) (u : string) : contains c u = false -> PyStr.rfind c u = -1.
Proof.
  induction u as [|a u IH]; [reflexivity|]. cbn.
  destruct (Ascii.eqb a c); [discriminate|]. cbn. intros H.
  rewrite (IH H). reflexivity.
Qed.

Lemma rfind_some (c : ascii) (u : string) :
  contains c u = true ->
  exists v w : string,
    u = v +:+ String c w /\ contains c w = false
    /\ PyStr.rfind c u = Z.of_nat (String.length v).
Proof.
  induction u as [|a u IH]; [discriminate|]. cbn [contains PyStr.rfind].
  destruct (contains c u) eqn:Hc.
  - intros _. destruct (IH eq_refl) as (v & w & -> & Hw & Hr).
    exists (String a v), w. repeat split; [exact Hw|].
    rewrite Hr. destruct (Z.leb_spec 0 (Z.of_nat (String.length v))); [|lia].
    cbn [String.length]. lia.
  - rewrite orb_false_r. intros Ha. apply Ascii.eqb_eq in Ha as ->.
    exists EmptyString, u. repeat split; [exact Hc|].
    rewrite (rfind_none _ _ Hc). cbn. rewrite Ascii.eqb_refl. reflexivity.
Qed.

Lemma contains_app (c : ascii) (v w : string) :
  contains c (v +:+ w) = contains c v || contains c w.
Proof.
  induction v as [|a v IH]; [reflexivity|].
  rewrite app_cons. cbn [contains]. rewrite IH, orb_assoc. reflexivity.
Qed.

Lemma scan_app (st : bool * bool) (v w : string) :
  scan st (v +:+ w) = scan (scan st v) w.
Proof. revert st. induction v as [|a v IH]; intros st; [reflexivity|apply IH]. Qed.

(** The scanner only looks at the last component. *)
Lemma bare_dot_basename (u : string) :
  bare_dot (PyStr.basename u) = bare_dot u
  /\ contains "/" (PyStr.basename u) = false.
Proof.
  unfold PyStr.basename.
  destruct (contains "/" u) eqn:Hc.
  - destruct (rfind_some _ _ Hc) as (v & w & -> & Hw & ->).
    replace (Z.to_nat (Z.of_nat (String.length v) + 1))
      with (String.length (v +:+ "/")).
    2:{ rewrite app_length. cbn [String.length]. lia. }
    rewrite <- (app_snoc v "/" w).
    rewrite app_length_drop. split; [|exact Hw].
    unfold bare_dot. rewrite !scan_app. reflexivity.
  - rewrite (rfind_none _ _ Hc). cbn. split; [reflexivity|exact Hc].
Qed.

Lemma scan_plain (st : bool * bool) (w : string) :
  contains "/" w = false -> contains "." w = false ->
  scan st w = match w with EmptyString => st | _ => (true, false) end.
Proof.
  revert st. induction w as [|a w IH]; intros st; [reflexivity|].
  cbn [contains scan]. intros Hs Hd.
  apply orb_false_iff in Hs as [Ha Hs]. apply orb_false_iff in Hd as [Hb Hd].
  rewrite (IH _ Hs Hd). unfold step. rewrite Ha, Hb.
  destruct w; reflexivity.
Qed.

Lemma scan_seen (x : bool) (v : string) :
  contains "/" v = false -> fst (scan (true, x) v) = true.
Proof.
  revert x. induction v as [|a v IH]; intros x; [reflexivity|].
  cbn [contains scan]. intros Hs. apply orb_false_iff in Hs as [Ha Hs].
  unfold step. rewrite Ha. destruct (Ascii.eqb a "."); apply IH; exact Hs.
Qed.

Lemma char_at_app (pre : string) (a : ascii) (rest : string) :
  PyStr.char_at (pre +:+ String a rest) (Z.of_nat (String.length pre)) = Some a.
Proof.
  unfold PyStr.char_at.
  destruct (Z.ltb_spec (Z.of_nat (String.length pre)) 0) as [|_]; [lia|].
  rewrite Nat2Z.id. induction pre as [|b pre IH]; [reflexivity|exact IH].
Qed.

(** The leading-dots loop of [splitext] and the scanner agree. *)
Lemma splits_at_scan (v pre rest : string) (x : bool) :
  contains "/" v = false ->
  PyStr.splits_at (String.length v) (pre +:+ v +:+ rest)
                  (Z.of_nat (String.length pre))
  = fst (scan (false, x) v).
Proof.
  revert pre x. induction v as [|a v IH]; intros pre x Hs; [reflexivity|].
  cbn [contains] in Hs. apply orb_false_iff in Hs as [Ha Hs].
  rewrite app_cons. cbn [String.length PyStr.splits_at scan].
  rewrite char_at_app. unfold step. rewrite Ha.
  destruct (Ascii.eqb a ".") eqn:Hdot.
  - apply Ascii.eqb_eq in Hdot as ->.
    rewrite <- (app_snoc pre "." (v +:+ rest)).
    replace (Z.of_nat (String.length pre) + 1)
      with (Z.of_nat (String.length (pre +:+ "."))).
    2:{ rewrite app_length. cbn [String.length]. lia. }
    apply IH. exact Hs.
  - symmetry. apply scan_seen. exact Hs.
Qed.

(** On a name without a slash, [splitext] gives the bare "." exactly when
    the scanner accepts. *)
Lemma splitext_bare_dot_scan (b : string) :
  contains "/" b = false ->
  (snd (PyStr.splitext b) = "." <-> bare_dot b = true).
Proof.
  intros Hs. unfold PyStr.splitext, bare_dot.
  rewrite (rfind_none _ _ Hs).
  destruct (contains "." b) eqn:Hd.
  - destruct (rfind_some _ _ Hd) as (v & w & -> & Hw & ->).
    rewrite contains_app in Hs. apply orb_false_iff in Hs as [Hsv Hsw].
    cbn [contains] in Hsw. apply orb_false_iff in Hsw as [_ Hsw].
    destruct (Z.ltb_spec (-1) (Z.of_nat (String.length v))) as [_|]; [|lia].
    replace (Z.to_nat (Z.of_nat (String.length v) - (-1 + 1))) with (String.length v) by lia.
    change (-1 + 1) with (Z.of_nat (String.length EmptyString)).
    change (v +:+ String "." w) with (EmptyString +:+ v +:+ String "." w) at 1.
    rewrite (splits_at_scan v EmptyString (String "." w) false Hsv).
    rewrite Nat2Z.id, scan_app. cbn [scan].
    change (step (scan (false, false) v) ".") with (fst (scan (false, false) v), true).
    rewrite (scan_plain _ w Hsw Hw).
    destruct (scan (false, false) v) as [seen last]. cbn [fst snd andb].
    destruct seen; cbn [andb fst snd].
    + rewrite app_length_drop. destruct w; cbn; split; congruence.
    + destruct w; cbn; split; congruence.
  - rewrite (rfind_none _ _ Hd). cbn [Z.ltb Z.compare andb snd].
    assert (contains "/" b = false) as Hs' by exact Hs.
    rewrite (scan_plain _ b Hs' Hd). destruct b; cbn; split; congruence.
Qed.

Lemma url_ext_bare_dot (u : string) :
  Claimed.url_ext u = "." <-> bare_dot u = true.
Proof.
  unfold Claimed.url_ext.
  destruct (bare_dot_basename u) as [<- Hs].
  apply splitext_bare_dot_scan. exact Hs.
Qed.

Lemma startswith_app (old s : string) :
  PyStr.startswith old s = true -> s = old +:+ PyStr.drop (String.length old) s.
Proof.
  revert s. induction old as [|a old IH]; intros s; [reflexivity|].
  destruct s as [|b s]; [discriminate|]. cbn.
  intros H. apply andb_true_iff in H as [Hab H].
  apply Ascii.eqb_eq in Hab as ->. rewrite app_cons. f_equal. apply IH. exact H.
Qed.

Lemma drop_length (n : nat) (s : string) :
  (String.length (PyStr.drop n s) <= String.length s - n)%nat.
Proof.
  revert s. induction n as [|n IH]; intros s; [cbn; lia|].
  destruct s as [|a s]; [cbn; lia|]. cbn. apply IH.
Qed.

Lemma scan_size (st : bool * bool) (size : string) :
  size ∈ Scrape.IMAGE_SIZES -> scan st size = (true, false).
Proof.
  unfold Scrape.IMAGE_SIZES. rewrite !elem_of_cons.
  intros [->|[->|[->|[->|H]]]]; [reflexivity..|].
  apply elem_of_nil in H. contradiction.
Qed.

(** Replacing "medium" by a size does not change what the scanner sees. *)
Lemma scan_replace_go (size : string) (fuel : nat) (s : string) (st : bool * bool) :
  size ∈ Scrape.IMAGE_SIZES ->
  (String.length s <= fuel)%nat ->
  scan st (PyStr.replace_go fuel "medium" size s) = scan st s.
Proof.
  intros Hsize. revert s st. induction fuel as [|fuel IH]; intros s st Hlen;
    [reflexivity|].
  cbn [PyStr.replace_go]. destruct s as [|c s]; [reflexivity|].
  destruct (PyStr.startswith "medium" (String c s)) eqn:Hsw.
  - rewrite scan_app, (scan_size _ _ Hsize).
    rewrite IH.
    2:{ pose proof (drop_length (String.length "medium") (String c s)) as Hd.
        cbn [String.length] in Hd, Hlen |- *. lia. }
    rewrite (startswith_app _ _ Hsw) at 2.
    rewrite scan_app. f_equal.
  - cbn [scan]. apply IH. cbn [String.length] in Hlen. lia.
Qed.

Lemma url_ext_replace (size url : string) :
  size ∈ Scrape.IMAGE_SIZES ->
  Claimed.url_ext url = "." ->
  Claimed.url_ext (PyStr.replace "medium" size url) = ".".
Proof.
  intros Hsize. rewrite !url_ext_bare_dot. unfold bare_dot, PyStr.replace.
  rewrite scan_replace_go by (exact Hsize || lia). tauto.
Qed.

End Extensions.

(** ** The bare "." extension across two runs *)

Section BareDot.
Import Store Scrape Claimed.

Lemma download_image_saved (image_id taxon : Z) (url : string)
      (data : list Byte.byte) (s : loop) :
  files (download_image image_id taxon url (Http 200 (Body data)) s)
  = <[PyStr.str image_id +:+ url_ext url := data]> (files s).
Proof.
  unfold download_image, url_ext. cbn [Z.eqb Pos.eqb files logging_info write_file].
  apply insert_insert_eq.
Qed.

Lemma get_urls_lists (files : image_dir) (conn : table) (image_size : string)
      (force : bool) (r : row) :
  r ∈ conn -> listed_jpg files force r ->
  triple image_size r ∈ get_urls files conn image_size force.
Proof.
  intros Hr Hl. unfold get_urls. rewrite get_urls_loop_select.
  unfold get_urls_amended. apply list_elem_of_In, in_map.
  apply list_elem_of_In, list_elem_of_filter. split; assumption.
Qed.

(** C10: for a row whose URL has the bare "." extension, [get_urls] tests
    the file [<id>.jpg]; a successful [download_image] of the listed URL
    writes [<id>.]; and so, when [<id>.jpg] was absent, the row is listed
    again after its own download, with [force] false. *)
Theorem bare_dot_listed_again (r : row) (image_size : string) (force : bool)
        (data : list Byte.byte) (s : loop) :
  url_ext (image_url r) = "." ->
  image_size ∈ IMAGE_SIZES ->
  get_urls (files s) [r] image_size force
  = (if negb (exists_ (files s) (PyStr.str (observation_id r) +:+ ".jpg")) || force
     then [triple image_size r] else [])
  /\ files (download_image (observation_id r) (taxon_id r)
              (PyStr.replace "medium" image_size (image_url r))
              (Http 200 (Body data)) s)
     = <[PyStr.str (observation_id r) +:+ "." := data]> (files s)
  /\ (forall conn : table,
         r ∈ conn ->
         exists_ (files s) (PyStr.str (observation_id r) +:+ ".jpg") = false ->
         triple image_size r
           ∈ get_urls
               (files (download_image (observation_id r) (taxon_id r)
                         (PyStr.replace "medium" image_size (image_url r))
                         (Http 200 (Body data)) s))
               conn image_size false).
Proof.
  intros Hext Hsize.
  assert (files (download_image (observation_id r) (taxon_id r)
                   (PyStr.replace "medium" image_size (image_url r))
                   (Http 200 (Body data)) s)
          = <[PyStr.str (observation_id r) +:+ "." := data]> (files s)) as Hsaved.
  { rewrite download_image_saved, (url_ext_replace _ _ Hsize Hext). reflexivity. }
  split; [|split].
  - unfold get_urls. rewrite get_urls_loop_select. unfold get_urls_amended.
    rewrite filter_cons, filter_nil.
    assert (listed_jpg (files s) force r
            <-> negb (exists_ (files s) (PyStr.str (observation_id r) +:+ ".jpg"))
                || force = true) as Hl.
    { unfold listed_jpg. rewrite Hext. cbn [check_ext String.eqb Ascii.eqb Bool.eqb].
      destruct (exists_ (files s) _), force; cbn; split; try tauto;
        try discriminate; try (intros _; split; [discriminate|tauto]).
      intros [_ [?|?]]; discriminate. }
    destruct (negb _ || force).
    + rewrite decide_True by (apply Hl; reflexivity). reflexivity.
    + rewrite decide_False by (rewrite Hl; discriminate). reflexivity.
  - exact Hsaved.
  - intros conn Hr Hjpg. rewrite Hsaved.
    apply get_urls_lists; [exact Hr|].
    unfold listed_jpg. rewrite Hext. split; [discriminate|]. left.
    cbn [check_ext String.eqb Ascii.eqb Bool.eqb].
    unfold exists_ in *. rewrite lookup_insert_ne; [exact Hjpg|].
    intros Heq. apply (inj (String.app _)) in Heq. discriminate.
Qed.

(** Row 45 with the URL [.../medium.]: downloaded as [45.], listed again. *)
Lemma bare_dot_listed_again_witness :
  url_ext "https://h/photos/45/medium." = "."
  /\ "large" ∈ IMAGE_SIZES
  /\ files (download_image
              (observation_id (Row 45 7 "https://h/photos/45/medium." [] None))
              (taxon_id (Row 45 7 "https://h/photos/45/medium." [] None))
              (PyStr.replace "medium" "large"
                 (image_url (Row 45 7 "https://h/photos/45/medium." [] None)))
              (Http 200 (Body [Byte.x2a])) (initial 10 ∅))
     = <[PyStr.str (observation_id (Row 45 7 "https://h/photos/45/medium." [] None))
           +:+ "." := [Byte.x2a]]> (files (initial 10 ∅)).
Proof.
  assert (url_ext "https://h/photos/45/medium." = ".") as Hext by (vm_compute; reflexivity).
  assert ("large" ∈ IMAGE_SIZES) as Hsize by (right; right; left).
  split; [exact Hext|]. split; [exact Hsize|].
  exact (proj1 (proj2 (bare_dot_listed_again
                         (Row 45 7 "https://h/photos/45/medium." [] None)
                         "large" false [Byte.x2a] (initial 10 ∅) Hext Hsize))).
Defined.

Example bare_dot_two_runs :
  get_urls ∅ [Row 45 7 "https://h/photos/45/medium." [] None] "large" false
  = [(45, 7, "https://h/photos/45/large.")]
  /\ get_urls
       (files (download_image 45 7 "https://h/photos/45/large."
                 (Http 200 (Body [Byte.x2a])) (initial 10 ∅)))
       [Row 45 7 "https://h/photos/45/medium." [] None] "large" false
     = [(45, 7, "https://h/photos/45/large.")].
Proof. split; vm_compute; reflexivity. Qed.

End BareDot.

(** ** More on the work list of the image variant *)

Section WorkListMore.
Import Store Scrape Claimed.

(** X1: with [force] every row but the ".gif" ones is listed, whatever the image
    directory holds; an empty directory gives the same list without
    [force]. *)
Theorem get_urls_force_lists_all_but_gif (files : image_dir) (conn : table)
        (image_size : string) :
  get_urls files conn image_size true
  = map (triple image_size) (filter (fun r => url_ext (image_url r) <> ".gif") conn)
  /\ get_urls ∅ conn image_size false = get_urls files conn image_size true.
Proof.
  unfold get_urls. rewrite !get_urls_loop_select. unfold get_urls_amended.
  assert (forall fs force,
             (force = true \/ fs = (∅ : image_dir)) ->
             filter (listed_jpg fs force) conn
             = filter (fun r => url_ext (image_url r) <> ".gif") conn) as H.
  { intros fs force Hf. apply list_filter_iff. intros r. unfold listed_jpg.
    split; [tauto|]. intros Hg. split; [exact Hg|].
    destruct Hf as [->| ->]; [right; reflexivity|left].
    unfold exists_. rewrite lookup_empty. reflexivity. }
  rewrite (H files true), (H ∅ false) by tauto. split; reflexivity.
Qed.

(** X2: A fuller image directory never lengthens the work list: the list for
    the larger directory is a sublist of the list for the smaller one. *)
Theorem get_urls_shrinks_with_files (files1 files2 : image_dir) (conn : table)
        (image_size : string) (force : bool) :
  (forall name : string, is_Some (files1 !! name) -> is_Some (files2 !! name)) ->
  get_urls files2 conn image_size force
    `sublist_of` get_urls files1 conn image_size force.
Proof.
  intros Hsub. unfold get_urls. rewrite !get_urls_loop_select.
  unfold get_urls_amended. apply fmap_sublist.
  rewrite <- (list_filter_filter_l (listed_jpg files2 force) (listed_jpg files1 force)).
  - apply sublist_filter.
  - intros r [Hg Hl]. split; [exact Hg|].
    destruct Hl as [Hl|Hl]; [left|right; exact Hl].
    unfold exists_ in *.
    destruct (files1 !! _) as [d|] eqn:E; [|reflexivity].
    destruct (Hsub _ (ex_intro _ d E)) as [d' E']. rewrite E' in Hl. discriminate.
Qed.

Lemma get_urls_shrinks_with_files_witness :
  (forall name : string,
      is_Some ((∅ : image_dir) !! name)
      -> is_Some (({[ "42.jpg" := [] ]} : image_dir) !! name))
  /\ get_urls {[ "42.jpg" := [] ]}
       [Row 42 7 "https://h/photos/42/medium.jpg" [] None] "medium" false
       `sublist_of`
     get_urls ∅ [Row 42 7 "https://h/photos/42/medium.jpg" [] None] "medium" false.
Proof.
  assert (forall name : string,
             is_Some ((∅ : image_dir) !! name)
             -> is_Some (({[ "42.jpg" := [] ]} : image_dir) !! name)) as H.
  { intros name [d Hd]. rewrite lookup_empty in Hd. discriminate. }
  split; [exact H|].
  apply (get_urls_shrinks_with_files ∅ {[ "42.jpg" := [] ]}). exact H.
Defined.

Lemma replace_go_same (old : string) (fuel : nat) (s : string) :
  PyStr.replace_go fuel old old s = s.
Proof.
  revert s. induction fuel as [|fuel IH]; intros s; [reflexivity|].
  cbn [PyStr.replace_go]. destruct s as [|c s]; [reflexivity|].
  destruct (PyStr.startswith old (String c s)) eqn:Hsw.
  - rewrite IH. symmetry. apply startswith_app. exact Hsw.
  - f_equal. apply IH.
Qed.

Lemma replace_medium_medium (url : string) : PyStr.replace "medium" "medium" url = url.
Proof. unfold PyStr.replace. apply replace_go_same. Qed.

Lemma get_urls_medium_keeps_urls_aux (files : image_dir) (conn : table) (force : bool) :
  get_urls files conn "medium" force
  = map (fun r => (observation_id r, taxon_id r, image_url r))
        (filter (listed_jpg files force) conn).
Proof.
  unfold get_urls. rewrite get_urls_loop_select. unfold get_urls_amended.
  apply map_ext. intros r. unfold triple. rewrite replace_medium_medium. reflexivity.
Qed.

(** X3: with the size "medium" the listed URLs are the stored ones, unchanged:
    replacing "medium" by itself is the identity on every URL. *)
Theorem get_urls_medium_keeps_urls (files : image_dir) (conn : table) (force : bool) :
  get_urls files conn "medium" force
  = map (fun r => (observation_id r, taxon_id r, image_url r))
        (filter (listed_jpg files force) conn)
  /\ (forall url : string, PyStr.replace "medium" "medium" url = url).
Proof.
  split; [apply get_urls_medium_keeps_urls_aux|apply replace_medium_medium].
Qed.

(** X4: after a 200 answer for a listed URL whose extension is not the bare "."
    and is the extension of the stored URL, the file exists, empty when
    reading the body raised, and the row is not listed again with [force]
    off. *)
Theorem downloaded_row_not_listed_again (r : row) (image_size : string)
        (body : read_result) (s : loop) :
  url_ext (image_url r) <> "." ->
  url_ext (PyStr.replace "medium" image_size (image_url r)) = url_ext (image_url r) ->
  files (download_image (observation_id r) (taxon_id r)
           (PyStr.replace "medium" image_size (image_url r)) (Http 200 body) s)
    !! (PyStr.str (observation_id r) +:+ url_ext (image_url r))
  = Some (match body with ReadRaises _ => [] | Body data => data end)
  /\ get_urls
       (files (download_image (observation_id r) (taxon_id r)
                 (PyStr.replace "medium" image_size (image_url r)) (Http 200 body) s))
       [r] image_size false
     = [].
Proof.
  intros Hdot Hext.
  assert (files (download_image (observation_id r) (taxon_id r)
                   (PyStr.replace "medium" image_size (image_url r)) (Http 200 body) s)
            !! (PyStr.str (observation_id r) +:+ url_ext (image_url r))
          = Some (match body with ReadRaises _ => [] | Body data => data end)) as Hfile.
  { unfold download_image. cbn [Z.eqb Pos.eqb]. fold (url_ext (PyStr.replace "medium" image_size (image_url r))).
    rewrite Hext. destruct body; cbn [files logging_info write_file];
      rewrite !lookup_insert_eq; reflexivity. }
  split; [exact Hfile|].
  unfold get_urls. rewrite get_urls_loop_select. unfold get_urls_amended.
  rewrite filter_cons_False; [reflexivity|].
  intros [_ [Hl|Hl]]; [|discriminate].
  unfold check_ext in Hl.
  destruct (String.eqb_spec (url_ext (image_url r)) ".") as [|_]; [contradiction|].
  unfold exists_ in Hl. rewrite Hfile in Hl. discriminate.
Qed.

Lemma downloaded_row_not_listed_again_witness :
  url_ext (image_url (Row 42 7 "https://h/photos/42/medium.jpg" [] None)) <> "."
  /\ get_urls
       (files (download_image
                 (observation_id (Row 42 7 "https://h/photos/42/medium.jpg" [] None))
                 (taxon_id (Row 42 7 "https://h/photos/42/medium.jpg" [] None))
                 (PyStr.replace "medium" "medium"
                    (image_url (Row 42 7 "https://h/photos/42/medium.jpg" [] None)))
                 (Http 200 (ReadRaises "reset")) (initial 10 ∅)))
       [Row 42 7 "https://h/photos/42/medium.jpg" [] None] "medium" false
     = [].
Proof.
  assert (url_ext (image_url (Row 42 7 "https://h/photos/42/medium.jpg" [] None)) <> ".")
    as Hdot by (vm_compute; discriminate).
  split; [exact Hdot|].
  apply (downloaded_row_not_listed_again
           (Row 42 7 "https://h/photos/42/medium.jpg" [] None) "medium"
           (ReadRaises "reset") (initial 10 ∅) Hdot).
  rewrite replace_medium_medium. reflexivity.
Defined.

End WorkListMore.

(** ** More on the image downloads *)

Section ImageRunMore.
Import Store Scrape.

(** X5: without a permit nothing is requested: a negative bound is refused and
    a bound of zero leaves the first turn of the loop waiting, so the run of
    a non-empty work list never returns, requests nothing and leaves the
    directory and the log untouched. *)
Theorem download_images_needs_permit (net : nat -> string -> response)
        (arrivals : list nat) (urls : list item) (image_size : string)
        (semaphore : Z) (dir : image_dir) :
  semaphore <= 0 -> urls <> [] ->
  returned (download_images net arrivals urls image_size semaphore dir) = false
  /\ raised (download_images net arrivals urls image_size semaphore dir)
     = (semaphore <? 0)
  /\ final_state (download_images net arrivals urls image_size semaphore dir)
     = initial semaphore dir.
Proof.
  intros Hle Hne. unfold download_images.
  destruct (Z.ltb_spec semaphore 0) as [Hneg|Hpos]; [repeat split|].
  destruct urls as [|it urls]; [contradiction|].
  cbn [spawn]. unfold acquire. cbn [initial sem_value].
  destruct (Z.ltb_spec 0 semaphore) as [|_]; [lia|]. repeat split.
Qed.

Lemma download_images_needs_permit_witness :
  0 <= 0 /\ [(1, 5, "https://h/1/medium.jpg")] <> ([] : list item)
  /\ final_state (download_images (fun _ _ => Http 200 (Body [])) [0%nat]
                    [(1, 5, "https://h/1/medium.jpg")] "medium" 0 ∅)
     = initial 0 ∅.
Proof.
  split; [lia|]. split; [discriminate|].
  apply (download_images_needs_permit (fun _ _ => Http 200 (Body [])) [0%nat]
           [(1, 5, "https://h/1/medium.jpg")] "medium" 0 ∅); [lia|discriminate].
Defined.

Lemma download_image_sem (image_id taxon : Z) (url : string) (r : response)
      (s : loop) (v : Z) :
  download_image image_id taxon url r
    (Loop v (tasks s) (files s) (log s) (requested s) (high_water s))
  = Loop v (tasks (download_image image_id taxon url r s))
         (files (download_image image_id taxon url r s))
         (log (download_image image_id taxon url r s))
         (requested (download_image image_id taxon url r s))
         (high_water (download_image image_id taxon url r s)).
Proof.
  unfold download_image. destruct r as [e|status body]; [reflexivity|].
  destruct (status =? 200); [|reflexivity]. destruct body; reflexivity.
Qed.

Lemma complete_sem (net : nat -> string -> response) (i : nat) (s : loop) (v : Z) :
  complete net i (Loop v (tasks s) (files s) (log s) (requested s) (high_water s))
  = Loop v (tasks (complete net i s)) (files (complete net i s))
         (log (complete net i s)) (requested (complete net i s))
         (high_water (complete net i s)).
Proof.
  unfold complete. cbn [tasks].
  destruct (tasks s !! i) as [[[[image_id taxon] url] st]|]; [|reflexivity].
  destruct st; try reflexivity.
  rewrite download_image_sem. reflexivity.
Qed.

Lemma complete_all_sem (net : nat -> string -> response) (arrivals : list nat)
      (s : loop) (v : Z) :
  complete_all net arrivals
    (Loop v (tasks s) (files s) (log s) (requested s) (high_water s))
  = Loop v (tasks (complete_all net arrivals s)) (files (complete_all net arrivals s))
         (log (complete_all net arrivals s)) (requested (complete_all net arrivals s))
         (high_water (complete_all net arrivals s)).
Proof.
  revert s. unfold complete_all. induction arrivals as [|i arrivals IH]; intros s;
    [reflexivity|].
  cbn [fold_left]. rewrite complete_sem. apply IH.
Qed.

Lemma download_images_gather_state (net : nat -> string -> response)
      (arrivals : list nat) (urls : list item) (image_size : string)
      (semaphore : Z) (dir : image_dir) :
  1 <= semaphore ->
  download_images net arrivals urls image_size semaphore dir
  = match pending (complete_all net arrivals
                     (Loop semaphore (flying urls) dir [] urls (length urls))) with
    | [] => Returned tt
              (logging_info ("Downloaded " +:+ image_size +:+ " images.")
                 (complete_all net arrivals
                    (Loop semaphore (flying urls) dir [] urls (length urls))))
    | _ => Running (complete_all net arrivals
                      (Loop semaphore (flying urls) dir [] urls (length urls)))
    end.
Proof.
  intros Hsem. unfold download_images.
  destruct (Z.ltb_spec semaphore 0) as [Hneg|_]; [lia|].
  rewrite spawn_creates by (cbn; lia).
  cbn [initial sem_value tasks files log requested high_water app].
  unfold start_all. cbn [tasks].
  assert (length (created urls) = length urls) as Hlen by apply length_map.
  rewrite !Hlen.
  pose proof (start_from_flying urls [] (Loop semaphore (created urls) dir [] [] 0)
                eq_refl eq_refl) as Hs.
  cbn [sem_value tasks files log requested high_water app length Nat.add] in Hs.
  rewrite Hs. reflexivity.
Qed.

(** X6: the bound has no effect on what the run does: two runs with bounds of
    at least one end the same way with the same tasks, files, log and
    requests. *)
Theorem download_images_bound_is_idle (net : nat -> string -> response)
        (arrivals : list nat) (urls : list item) (image_size : string)
        (n1 n2 : Z) (dir : image_dir) :
  1 <= n1 -> 1 <= n2 ->
  returned (download_images net arrivals urls image_size n1 dir)
  = returned (download_images net arrivals urls image_size n2 dir)
  /\ tasks (final_state (download_images net arrivals urls image_size n1 dir))
     = tasks (final_state (download_images net arrivals urls image_size n2 dir))
  /\ files (final_state (download_images net arrivals urls image_size n1 dir))
     = files (final_state (download_images net arrivals urls image_size n2 dir))
  /\ log (final_state (download_images net arrivals urls image_size n1 dir))
     = log (final_state (download_images net arrivals urls image_size n2 dir))
  /\ requested (final_state (download_images net arrivals urls image_size n1 dir))
     = requested (final_state (download_images net arrivals urls image_size n2 dir)).
Proof.
  intros H1 H2.
  rewrite !download_images_gather_state by assumption.
  pose proof (complete_all_sem net arrivals
                (Loop n1 (flying urls) dir [] urls (length urls)) n2) as E.
  cbn [tasks files log requested high_water] in E. rewrite E.
  set (s1 := complete_all net arrivals (Loop n1 (flying urls) dir [] urls (length urls))).
  unfold pending. cbn [tasks].
  destruct (map fst (filter _ (tasks s1))); cbn; repeat split.
Qed.

Lemma download_images_bound_is_idle_witness :
  1 <= 1 /\ 1 <= 30
  /\ files (final_state
              (download_images (fun _ _ => Http 200 (Body [Byte.x2a])) [0%nat]
                 [(1, 5, "https://h/1/medium.jpg")] "medium" 1 ∅))
     = files (final_state
                (download_images (fun _ _ => Http 200 (Body [Byte.x2a])) [0%nat]
                   [(1, 5, "https://h/1/medium.jpg")] "medium" 30 ∅)).
Proof.
  split; [lia|]. split; [lia|].
  apply (download_images_bound_is_idle (fun _ _ => Http 200 (Body [Byte.x2a])) [0%nat]
           [(1, 5, "https://h/1/medium.jpg")] "medium" 1 30 ∅); lia.
Defined.

Lemma download_image_logs_once (image_id taxon : Z) (url : string) (r : response)
      (s : loop) :
  length (log (download_image image_id taxon url r s)) = S (length (log s)).
Proof.
  unfold download_image. destruct r as [e|status body].
  - cbn. rewrite length_app. cbn. lia.
  - destruct (status =? 200); [destruct body|]; cbn; rewrite length_app; cbn; lia.
Qed.

Lemma done_count_insert (l : list (item * task_state)) (i : nat) (it : item) :
  l !! i = Some (it, InFlight) ->
  length (filter (fun t : item * task_state => snd t = Done) (<[i := (it, Done)]> l))
  = S (length (filter (fun t : item * task_state => snd t = Done) l)).
Proof.
  intros Hi.
  rewrite insert_take_drop by (eapply lookup_lt_Some; exact Hi).
  rewrite <- (take_drop_middle l i _ Hi) at 3.
  rewrite !filter_app, !length_app.
  rewrite filter_cons_True by reflexivity.
  rewrite (filter_cons_False _ (it, InFlight)) by discriminate.
  cbn [length]. lia.
Qed.

Lemma complete_log_count (net : nat -> string -> response) (i : nat) (s : loop) :
  (length (log (complete net i s))
   + length (filter (fun t : item * task_state => snd t = Done) (tasks s)))%nat
  = (length (log s)
     + length (filter (fun t : item * task_state => snd t = Done)
                 (tasks (complete net i s))))%nat.
Proof.
  unfold complete.
  destruct (tasks s !! i) as [[[[image_id taxon] url] st]|] eqn:Hi; [|reflexivity].
  destruct st; try reflexivity.
  cbn [log tasks]. rewrite download_image_tasks, download_image_logs_once.
  rewrite (done_count_insert _ _ _ Hi). lia.
Qed.

Lemma complete_all_log_count (net : nat -> string -> response) (arrivals : list nat)
      (s : loop) :
  (length (log (complete_all net arrivals s))
   + length (filter (fun t : item * task_state => snd t = Done) (tasks s)))%nat
  = (length (log s)
     + length (filter (fun t : item * task_state => snd t = Done)
                 (tasks (complete_all net arrivals s))))%nat.
Proof.
  revert s. unfold complete_all. induction arrivals as [|i arrivals IH]; intros s;
    [reflexivity|].
  cbn [fold_left]. pose proof (IH (complete net i s)) as H1.
  pose proof (complete_log_count net i s) as H2. lia.
Qed.

Lemma flying_none_done (urls : list item) :
  filter (fun t : item * task_state => snd t = Done) (flying urls) = [].
Proof.
  induction urls as [|it urls IH]; [reflexivity|].
  cbn [flying map]. rewrite filter_cons_False by discriminate. exact IH.
Qed.

Lemma all_done_filter (l : list (item * task_state)) :
  filter (fun t : item * task_state => snd t <> Done) l = [] ->
  filter (fun t : item * task_state => snd t = Done) l = l.
Proof.
  induction l as [|[it st] l IHl]; [reflexivity|]. intros Hp.
  destruct (decide (st = Done)) as [->|Hnd].
  - rewrite filter_cons_True by reflexivity.
    rewrite filter_cons_False in Hp by (cbn; tauto).
    f_equal. apply IHl. exact Hp.
  - rewrite filter_cons_True in Hp by exact Hnd. discriminate.
Qed.

(** X7: every answered request leaves exactly one record in the log, whatever
    the answer and however often it is announced: the log holds as many
    records as tasks are done, plus the closing record of a run that
    returned. *)
Theorem download_images_log_count (net : nat -> string -> response)
        (arrivals : list nat) (urls : list item) (image_size : string)
        (semaphore : Z) (dir : image_dir) :
  1 <= semaphore ->
  length (log (final_state (download_images net arrivals urls image_size semaphore dir)))
  = (length (filter (fun t : item * task_state => snd t = Done)
               (tasks (final_state
                         (download_images net arrivals urls image_size semaphore dir))))
     + if returned (download_images net arrivals urls image_size semaphore dir)
       then 1 else 0)%nat
  /\ (returned (download_images net arrivals urls image_size semaphore dir) = true ->
      length (log (final_state
                     (download_images net arrivals urls image_size semaphore dir)))
      = S (length urls)).
Proof.
  intros Hsem. rewrite download_images_gather_state by exact Hsem.
  set (s0 := Loop semaphore (flying urls) dir [] urls (length urls)).
  pose proof (complete_all_log_count net arrivals s0) as Hc.
  cbn [s0 tasks log length] in Hc. rewrite flying_none_done in Hc. cbn [length] in Hc.
  fold s0 in Hc.
  destruct (complete_all_frame net arrivals s0) as (_ & _ & _ & Hfst).
  assert (length (tasks (complete_all net arrivals s0)) = length urls) as Hlen.
  { rewrite <- (length_map fst), Hfst. cbn [s0 tasks]. unfold flying.
    rewrite !length_map. reflexivity. }
  destruct (pending (complete_all net arrivals s0)) as [|p ps] eqn:Hp;
    cbn [final_state returned logging_info log tasks].
  - rewrite length_app. cbn [length]. split; [lia|]. intros _.
    assert (filter (fun t : item * task_state => snd t = Done)
              (tasks (complete_all net arrivals s0))
            = tasks (complete_all net arrivals s0)) as Hall.
    { apply all_done_filter. unfold pending in Hp. apply map_eq_nil in Hp. exact Hp. }
    rewrite Hall in Hc. lia.
  - split; [lia|discriminate].
Qed.

Lemma download_images_log_count_witness :
  1 <= 10
  /\ returned (download_images (fun _ _ => Http 404 (Body [])) [0%nat; 0%nat]
                 [(1, 5, "https://h/1/medium.jpg")] "medium" 10 ∅) = true
  /\ length (log (final_state
                    (download_images (fun _ _ => Http 404 (Body [])) [0%nat; 0%nat]
                       [(1, 5, "https://h/1/medium.jpg")] "medium" 10 ∅)))
     = 2%nat.
Proof.
  split; [lia|].
  assert (returned (download_images (fun _ _ => Http 404 (Body [])) [0%nat; 0%nat]
                      [(1, 5, "https://h/1/medium.jpg")] "medium" 10 ∅) = true)
    as Hr by (vm_compute; reflexivity).
  split; [exact Hr|].
  apply (proj2 (download_images_log_count (fun _ _ => Http 404 (Body []))
                  [0%nat; 0%nat] [(1, 5, "https://h/1/medium.jpg")] "medium" 10 ∅
                  ltac:(lia))).
  exact Hr.
Defined.

Lemma download_image_keeps_files (image_id taxon : Z) (url : string) (r : response)
      (s : loop) (name : string) :
  is_Some (files s !! name) ->
  is_Some (files (download_image image_id taxon url r s) !! name).
Proof.
  intros Hs. unfold download_image. destruct r as [e|status body]; [exact Hs|].
  destruct (status =? 200); [|exact Hs].
  destruct body; cbn [files logging_info write_file];
    repeat (rewrite lookup_insert; case_decide; [eauto|]); exact Hs.
Qed.

Lemma download_image_writes (image_id taxon : Z) (url : string) (body : read_result)
      (s : loop) :
  is_Some (files (download_image image_id taxon url (Http 200 body) s)
             !! (PyStr.str image_id +:+ Claimed.url_ext url)).
Proof.
  unfold download_image, Claimed.url_ext. cbn [Z.eqb Pos.eqb].
  destruct body; cbn [files logging_info write_file]; rewrite lookup_insert_eq; eauto.
Qed.

Lemma complete_keeps_files (net : nat -> string -> response) (i : nat) (s : loop)
      (name : string) :
  is_Some (files s !! name) -> is_Some (files (complete net i s) !! name).
Proof.
  intros Hs. unfold complete.
  destruct (tasks s !! i) as [[[[image_id taxon] url] st]|]; [|exact Hs].
  destruct st; try exact Hs. cbn [files]. apply download_image_keeps_files. exact Hs.
Qed.

Lemma complete_all_keeps_files (net : nat -> string -> response)
      (arrivals : list nat) (s : loop) (name : string) :
  is_Some (files s !! name) -> is_Some (files (complete_all net arrivals s) !! name).
Proof.
  revert s. unfold complete_all. induction arrivals as [|i arrivals IH]; intros s Hs;
    [exact Hs|].
  cbn [fold_left]. apply IH, complete_keeps_files, Hs.
Qed.

Lemma complete_all_writes (net : nat -> string -> response) (arrivals : list nat)
      (s : loop) (i : nat) (image_id taxon : Z) (url : string) (body : read_result) :
  tasks s !! i = Some ((image_id, taxon, url), InFlight) ->
  net i url = Http 200 body ->
  i ∈ arrivals ->
  is_Some (files (complete_all net arrivals s)
             !! (PyStr.str image_id +:+ Claimed.url_ext url)).
Proof.
  revert s. unfold complete_all.
  induction arrivals as [|j arrivals IH]; intros s Hi Hnet Hin.
  - apply elem_of_nil in Hin. contradiction.
  - cbn [fold_left]. destruct (decide (j = i)) as [->|Hne].
    + apply (complete_all_keeps_files net arrivals).
      unfold complete. rewrite Hi. cbn [files]. rewrite Hnet.
      apply download_image_writes.
    + apply IH; [|exact Hnet|].
      * rewrite complete_tasks.
        destruct (tasks s !! j) as [[it st]|]; [|exact Hi].
        destruct st; try exact Hi.
        rewrite list_lookup_insert_ne by exact Hne. exact Hi.
      * apply elem_of_cons in Hin as [->|Hin]; [contradiction|exact Hin].
Qed.

(** X8: once the 200 answer to a listed item has arrived, the file named by its
    identifier and the extension of its URL exists, whatever else the run
    did before or after. *)
Theorem download_images_writes_answered (net : nat -> string -> response)
        (arrivals : list nat) (urls : list item) (image_size : string)
        (semaphore : Z) (dir : image_dir) (i : nat) (image_id taxon : Z)
        (url : string) (body : read_result) :
  1 <= semaphore ->
  urls !! i = Some (image_id, taxon, url) ->
  net i url = Http 200 body ->
  i ∈ arrivals ->
  is_Some (files (final_state
                    (download_images net arrivals urls image_size semaphore dir))
             !! (PyStr.str image_id +:+ Claimed.url_ext url)).
Proof.
  intros Hsem Hi Hnet Hin. rewrite download_images_gather_state by exact Hsem.
  assert (is_Some (files (complete_all net arrivals
                            (Loop semaphore (flying urls) dir [] urls (length urls)))
                     !! (PyStr.str image_id +:+ Claimed.url_ext url))) as H.
  { apply (complete_all_writes net arrivals _ i image_id taxon url body);
      [|exact Hnet|exact Hin].
    cbn [tasks]. unfold flying. rewrite list_lookup_fmap, Hi. reflexivity. }
  destruct (pending _); exact H.
Qed.

Lemma download_images_writes_answered_witness :
  1 <= 10
  /\ is_Some (files (final_state
                       (download_images (fun _ _ => Http 200 (Body [Byte.x2a])) [0%nat]
                          [(1, 5, "https://h/1/medium.jpg")] "medium" 10 ∅))
                !! (PyStr.str 1 +:+ Claimed.url_ext "https://h/1/medium.jpg")).
Proof.
  split; [lia|].
  apply (download_images_writes_answered (fun _ _ => Http 200 (Body [Byte.x2a]))
           [0%nat] [(1, 5, "https://h/1/medium.jpg")] "medium" 10 ∅ 0%nat 1 5
           "https://h/1/medium.jpg" (Body [Byte.x2a]));
    [lia|reflexivity|reflexivity|left].
Defined.

End ImageRunMore.

(** ** More on the annotation worker *)

Section WorkerMore.
Import Store Annotation Frame.

(** X10: [labels] reads a list exactly when every annotation carries a label,
    and gives the labels in order. *)
Theorem labels_all_labelled (l : list annotation) (ls : list string) :
  labels l = inr ls <-> l = map Labelled ls.
Proof.
  revert ls. induction l as [|a l IH]; intros ls.
  - cbn. split.
    + intros [= <-]. reflexivity.
    + destruct ls; [reflexivity|discriminate].
  - cbn [labels]. destruct a as [x| |].
    + destruct (labels l) as [e|xs] eqn:E.
      * split; [discriminate|]. destruct ls as [|y ls]; [discriminate|].
        intros [= -> Hl]. apply IH in Hl. discriminate.
      * split.
        -- intros [= <-]. cbn. f_equal. apply IH. reflexivity.
        -- destruct ls as [|y ls]; [discriminate|].
           intros [= -> Hl]. apply IH in Hl. congruence.
    + split; [discriminate|]. destruct ls; discriminate.
    + split; [discriminate|]. destruct ls; discriminate.
Qed.

Lemma classify_unsettled (oid : Z) (r : response) (s : state) :
  settled r = false ->
  exists detail : string,
    classify oid r s
    = put oid (logging_info ("Failed to scrape annotations for " +:+ PyStr.str oid
                               +:+ ": " +:+ detail) s).
Proof.
  unfold classify, settled, on_exception.
  destruct r as [e|status body]; [eauto|].
  destruct (Z.eqb_spec status 200) as [->|Hst]; cbn [andb].
  2:{ destruct body as [e|[[n|] [[|o l]|]]]; eauto. }
  destruct body as [e|[[n|] res]]; cbn [total_results results]; eauto.
  destruct (Z.eqb_spec n 1) as [->|Hn]; cbn [andb].
  - destruct res as [[|o l]|]; eauto.
    destruct (labels (default [] (obs_annotations o))) as [e|ls]; [eauto|discriminate].
  - destruct res as [[|o l]|]; eauto.
Qed.

(** X11: any answer that is not a readable single record (an exception of the
    request, a status other than 200, an unreadable body, a missing
    [total_results] or [results] key, a count other than one, an empty
    result list, an annotation without its label) puts the item back at the
    end of the queue, logs one record and leaves the table alone. *)
Theorem scrape_annotations_requeues_failure (net : Z -> nat -> response) (oid : Z)
        (rest : list Z) (s : state) (n : nat) :
  unfinished s = S n ->
  settled (net oid (attempts_of s oid)) = false ->
  exists (s' : state) (detail : string),
    iteration net oid rest s = Some s'
    /\ queue s' = (rest ++ [oid])%list
    /\ unfinished s' = S n
    /\ working s' = working s /\ durable s' = durable s
    /\ trace s'
       = (trace s
            ++ [Get oid; Request oid (attempts_of s oid);
                Log ("Failed to scrape annotations for " +:+ PyStr.str oid
                       +:+ ": " +:+ detail);
                Put oid; TaskDone])%list.
Proof.
  intros Hun Hset. unfold iteration, request.
  set (s0 := emit (Get oid) (State rest (unfinished s) (working s) (durable s)
                                  (attempts s) (trace s))).
  assert (attempts_of s0 oid = attempts_of s oid) as Ha by reflexivity.
  rewrite Ha.
  match goal with
  | |- context [classify oid _ ?s1] =>
      destruct (classify_unsettled oid (net oid (attempts_of s oid)) s1 Hset)
        as [detail ->]
  end.
  unfold task_done, put, logging_info, emit, s0.
  cbn [queue unfinished working durable attempts trace]. rewrite Hun.
  eexists _, detail. split; [reflexivity|].
  cbn [queue unfinished working durable attempts trace].
  repeat split. unfold emit. cbn [trace]. rewrite <- !app_assoc. reflexivity.
Qed.

Lemma scrape_annotations_requeues_failure_witness :
  exists (s' : state) (detail : string),
    iteration (fun _ _ => Http 200 (Json (Payload (Some 1)
                 (Some [Observation (Some [Labelled "Alive"; NoLabel])]))))
              7 [8] (State [7; 8] 2 [] [] ∅ []) = Some s'
    /\ queue s' = [8; 7]
    /\ unfinished s' = 2%nat
    /\ working s' = [] /\ durable s' = []
    /\ trace s'
       = [Get 7; Request 7 0;
          Log ("Failed to scrape annotations for " +:+ PyStr.str 7 +:+ ": " +:+ detail);
          Put 7; TaskDone].
Proof.
  exact (scrape_annotations_requeues_failure
           (fun _ _ => Http 200 (Json (Payload (Some 1)
                          (Some [Observation (Some [Labelled "Alive"; NoLabel])]))))
           7 [8] (State [7; 8] 2 [] [] ∅ []) 1%nat eq_refl eq_refl).
Defined.

(** What [classify] does to the rows. *)
Lemma classify_store (oid : Z) (r : response) (s : state) :
  (commits r = true ->
   exists v : string,
     working (classify oid r s) = update_annotations v oid (working s)
     /\ durable (classify oid r s) = working (classify oid r s))
  /\ (commits r = false ->
      working (classify oid r s) = working s /\ durable (classify oid r s) = durable s).
Proof.
  destruct (settled r) eqn:Hs.
  - unfold classify, settled, commits in *.
    destruct r as [e|status body]; [discriminate|].
    destruct body as [e|[[n|] [[|o l]|]]]; try discriminate.
    cbn [total_results results] in *.
    destruct (status =? 200); [|discriminate].
    destruct (n =? 1); [|discriminate]. cbn [andb] in *.
    destruct (labels (default [] (obs_annotations o))) as [e|[|x xs]];
      [discriminate| |].
    + split; [discriminate|]. intros _. split; reflexivity.
    + split; [|discriminate]. intros _. eexists. split; reflexivity.
  - split.
    + intros Hc. apply commits_settled in Hc. congruence.
    + intros _. destruct (classify_unsettled oid r s Hs) as [detail ->].
      split; reflexivity.
Qed.

Lemma iteration_store (net : Z -> nat -> response) (oid : Z) (rest : list Z)
      (s s' : state) :
  iteration net oid rest s = Some s' ->
  (commits (net oid (attempts_of s oid)) = true ->
   exists v : string,
     working s' = update_annotations v oid (working s) /\ durable s' = working s')
  /\ (commits (net oid (attempts_of s oid)) = false ->
      working s' = working s /\ durable s' = durable s).
Proof.
  unfold iteration, request.
  set (s0 := emit (Get oid) (State rest (unfinished s) (working s) (durable s)
                                  (attempts s) (trace s))).
  assert (attempts_of s0 oid = attempts_of s oid) as Ha by reflexivity.
  rewrite Ha.
  match goal with
  | |- context [classify oid ?r ?s1] =>
      destruct (classify_store oid r s1) as [Hc Hn];
      set (c := classify oid r s1) in *
  end.
  unfold task_done. destruct (unfinished c); [discriminate|].
  intros [= <-]. unfold emit. cbn [working durable]. split; assumption.
Qed.

Lemma update_annotations_frame (ids : list Z) (v : string) (oid : Z) (t0 t : table) :
  oid ∈ ids ->
  Forall2 (annotated_from ids) t0 t ->
  Forall2 (annotated_from ids) t0 (update_annotations v oid t).
Proof.
  intros Hin H. unfold update_annotations.
  induction H as [|r r' t0 t Hr _ IH]; [constructor|].
  cbn [map]. constructor; [|exact IH].
  destruct Hr as (H1 & H2 & H3 & H4 & H5).
  destruct (Z.eqb_spec (observation_id r') oid) as [Heq|_].
  - unfold annotated_from. cbn. repeat split; try assumption.
    right. split; [|eauto]. rewrite <- H1, Heq. exact Hin.
  - repeat split; assumption.
Qed.

Lemma annotated_from_refl (ids : list Z) (t : table) : Forall2 (annotated_from ids) t t.
Proof.
  induction t as [|r t IH]; constructor; [|exact IH].
  unfold annotated_from. tauto.
Qed.

Lemma scrape_annotations_invariant (net : Z -> nat -> response) (ids : list Z)
      (db : table) (fuel : nat) (s : state) :
  (forall x : Z, x ∈ queue s -> x ∈ ids) ->
  unfinished s = length (queue s) ->
  durable s = working s ->
  Forall2 (annotated_from ids) db (working s) ->
  (forall x : Z, x ∈ queue (final_state (scrape_annotations net fuel s)) -> x ∈ ids)
  /\ unfinished (final_state (scrape_annotations net fuel s))
     = length (queue (final_state (scrape_annotations net fuel s)))
  /\ durable (final_state (scrape_annotations net fuel s))
     = working (final_state (scrape_annotations net fuel s))
  /\ Forall2 (annotated_from ids) db
             (working (final_state (scrape_annotations net fuel s))).
Proof.
  revert s. induction fuel as [|fuel IH]; intros s Hq Hu Hd Hf;
    cbn [scrape_annotations]; [cbn; tauto|].
  destruct (queue s) as [|oid rest] eqn:Eq; [cbn; rewrite Eq; tauto|].
  cbn [length] in Hu.
  destruct (iteration_shape net oid rest s _ Hu) as (s' & Hit & Hq' & Hu' & _).
  rewrite Hit.
  destruct (iteration_store net oid rest s s' Hit) as [Hc Hn].
  assert (oid ∈ ids) as Hoid by (apply Hq; left).
  apply IH.
  - intros x. rewrite Hq'. destruct (settled _).
    + intros Hx. apply Hq. right. exact Hx.
    + rewrite elem_of_app, list_elem_of_singleton.
      intros [Hx| ->]; [apply Hq; right; exact Hx|exact Hoid].
  - rewrite Hq', Hu'. destruct (settled _); rewrite ?length_app; cbn; lia.
  - destruct (commits (net oid (attempts_of s oid))).
    + destruct (Hc eq_refl) as (v & _ & H). exact H.
    + destruct (Hn eq_refl) as [-> ->]. exact Hd.
  - destruct (commits (net oid (attempts_of s oid))).
    + destruct (Hc eq_refl) as (v & -> & _).
      apply update_annotations_frame; assumption.
    + destruct (Hn eq_refl) as [-> _]. exact Hf.
Qed.

Lemma enqueue_all_durable (ids : list Z) (s : state) :
  durable (enqueue_all ids s) = durable s.
Proof.
  unfold enqueue_all. revert s. induction ids as [|x l IH]; intros s; [reflexivity|].
  cbn [fold_left]. rewrite IH. reflexivity.
Qed.

(** X12: wherever the run of [scrape_annotations_from_ids] stands, every write
    is flushed, the counter of unfinished tasks equals the length of the
    queue, the queue holds given identifiers only, and the table is the
    initial one except for [annotations] values set on rows whose
    identifier was given: no row is added, removed or reordered, no other
    column changes, no value is reset to NULL. *)
Theorem scrape_annotations_from_ids_keeps_table (net : Z -> nat -> response)
        (fuel : nat) (ids : list Z) (db : table) :
  (forall x : Z,
      x ∈ queue (final_state (scrape_annotations_from_ids net fuel ids db)) -> x ∈ ids)
  /\ unfinished (final_state (scrape_annotations_from_ids net fuel ids db))
     = length (queue (final_state (scrape_annotations_from_ids net fuel ids db)))
  /\ durable (final_state (scrape_annotations_from_ids net fuel ids db))
     = working (final_state (scrape_annotations_from_ids net fuel ids db))
  /\ Forall2 (annotated_from ids) db
             (durable (final_state (scrape_annotations_from_ids net fuel ids db))).
Proof.
  destruct (enqueue_all_shape ids (initial db)) as (Hq & Hu & _ & Hw & _).
  cbn [initial queue unfinished working app Nat.add] in Hq, Hu, Hw.
  assert (durable (enqueue_all ids (initial db)) = db) as Hd
      by apply enqueue_all_durable.
  destruct (scrape_annotations_invariant net ids db fuel (enqueue_all ids (initial db)))
    as (H1 & H2 & H3 & H4).
  - rewrite Hq. tauto.
  - rewrite Hq, Hu. reflexivity.
  - rewrite Hd, Hw. reflexivity.
  - rewrite Hw. apply annotated_from_refl.
  - assert (final_state (scrape_annotations_from_ids net fuel ids db)
            = final_state (scrape_annotations net fuel (enqueue_all ids (initial db))))
      as ->.
    { unfold scrape_annotations_from_ids, scrape_annotations_from_ids_tail.
      destruct (scrape_annotations net fuel _); reflexivity. }
    rewrite H3. tauto.
Qed.

Lemma scrape_annotations_spins (net : Z -> nat -> response) (oid : Z) (fuel : nat)
      (s : state) :
  (forall k : nat, settled (net oid k) = false) ->
  oid ∈ queue s ->
  (length (queue s) <= unfinished s)%nat ->
  exists s' : state,
    scrape_annotations net fuel s = Running s' /\ oid ∈ queue s'.
Proof.
  intros Hnever. revert s. induction fuel as [|fuel IH]; intros s Hin Hle;
    cbn [scrape_annotations]; [eauto|].
  destruct (queue s) as [|x rest] eqn:Hq; [apply elem_of_nil in Hin; contradiction|].
  cbn [length] in Hle.
  destruct (unfinished s) as [|u] eqn:Hu; [lia|].
  destruct (iteration_shape net x rest s u Hu) as (s' & -> & Hq' & Hu' & _).
  apply IH.
  - rewrite Hq'. apply elem_of_cons in Hin as [->|Hin].
    + rewrite Hnever. apply elem_of_app. right. left.
    + destruct (settled _); [exact Hin|]. apply elem_of_app. left. exact Hin.
  - rewrite Hq', Hu'. destruct (settled _); rewrite ?length_app; cbn; lia.
Qed.

(** X13: an item the network never settles keeps the worker busy for good:
    however many turns the loop is given, the run is still at work, with
    the item on the queue, and never comes to rest on an empty queue. *)
Theorem scrape_annotations_from_ids_spins (net : Z -> nat -> response) (oid : Z)
        (fuel : nat) (ids : list Z) (db : table) :
  (forall k : nat, settled (net oid k) = false) ->
  oid ∈ ids ->
  exists s' : state,
    scrape_annotations_from_ids net fuel ids db = Running s' /\ oid ∈ queue s'.
Proof.
  intros Hnever Hin.
  destruct (enqueue_all_shape ids (initial db)) as (Hq & Hu & _).
  cbn [initial queue unfinished app Nat.add] in Hq, Hu.
  destruct (scrape_annotations_spins net oid fuel (enqueue_all ids (initial db)) Hnever)
    as (s' & Hrun & Hs').
  - rewrite Hq. exact Hin.
  - rewrite Hq, Hu. lia.
  - exists s'. unfold scrape_annotations_from_ids, scrape_annotations_from_ids_tail.
    rewrite Hrun. split; [reflexivity|exact Hs'].
Qed.

Lemma scrape_annotations_from_ids_spins_witness :
  exists s' : state,
    scrape_annotations_from_ids (fun _ _ => Http 503 (JsonRaises "")) 3 [7; 8] []
    = Running s'
    /\ 7 ∈ queue s'.
Proof.
  apply (scrape_annotations_from_ids_spins (fun _ _ => Http 503 (JsonRaises "")) 7 3
           [7; 8] []); [intros k; reflexivity|left].
Defined.

Lemma get_observation_ids_update (value : string) (oid : Z) (t : table) :
  get_observation_ids (update_annotations value oid t)
  = filter (fun x => x <> oid) (get_observation_ids t).
Proof.
  unfold get_observation_ids, select_id_where_annotations_null, update_annotations.
  induction t as [|r t IH]; [reflexivity|].
  cbn [map]. destruct (Z.eqb_spec (observation_id r) oid) as [Heq|Hne].
  - rewrite filter_cons_False by discriminate. rewrite IH.
    destruct (annotations r) eqn:Ha.
    + rewrite filter_cons_False by congruence. reflexivity.
    + rewrite filter_cons_True by exact Ha. cbn [map].
      rewrite filter_cons_False by tauto. reflexivity.
  - destruct (annotations r) eqn:Ha.
    + rewrite !filter_cons_False by congruence. exact IH.
    + rewrite !filter_cons_True by exact Ha. cbn [map].
      rewrite filter_cons_True by exact Hne. f_equal. exact IH.
Qed.

(** X14: setting the annotations of an identifier takes exactly that identifier
    off the list of the next run, and leaves the rest of the list as it
    was. *)
Theorem get_observation_ids_after_update (value : string) (oid : Z) (t : table) :
  get_observation_ids (update_annotations value oid t)
  = filter (fun x => x <> oid) (get_observation_ids t)
  /\ oid ∉ get_observation_ids (update_annotations value oid t).
Proof.
  split; [apply get_observation_ids_update|].
  rewrite get_observation_ids_update. intros H.
  apply list_elem_of_filter in H as [H _]. contradiction.
Qed.

Lemma scrape_annotations_completes (net : Z -> nat -> response) (ns : list nat)
      (s : state) (fuel : nat) :
  NoDup (queue s) ->
  unfinished s = length (queue s) ->
  durable s = working s ->
  (forall x : Z, x ∈ get_observation_ids (working s) -> x ∈ queue s) ->
  Forall2 (fun oid n => settles_in net oid (attempts_of s oid) n = true) (queue s) ns ->
  (turns ns < fuel)%nat ->
  exists s' : state,
    scrape_annotations net fuel s = Blocked s'
    /\ queue s' = [] /\ unfinished s' = 0%nat
    /\ get_observation_ids (durable s') = []
    /\ commits_in (trace s') = (commits_in (trace s) + length (queue s))%nat.
Proof.
  remember (turns ns) as m eqn:Hm.
  revert ns s fuel Hm.
  induction m as [m IH] using lt_wf_ind.
  intros ns s fuel Hm Hnd Hun Hdur Hnull Hall Hfuel.
  destruct fuel as [|fuel]; [lia|]. cbn [scrape_annotations].
  destruct (queue s) as [|oid rest] eqn:Hq.
  - exists s. cbn [length] in *. repeat split; [exact Hq|exact Hun| |lia].
    rewrite Hdur. destruct (get_observation_ids (working s)) as [|x l]; [reflexivity|].
    specialize (Hnull x ltac:(left)). apply elem_of_nil in Hnull. contradiction.
  - destruct ns as [|n ns]; [inversion Hall|].
    apply Forall2_cons in Hall as [Hhead Hall].
    apply NoDup_cons in Hnd as [Hnotin Hnd].
    cbn [length] in Hun.
    destruct (iteration_shape net oid rest s _ Hun)
      as (s' & Hit & Hq' & Hu' & Hat & Hc).
    rewrite Hit.
    destruct (iteration_store net oid rest s s' Hit) as [Hcom Hnot].
    assert (Forall2 (fun x k => settles_in net x (attempts_of s' x) k = true) rest ns)
      as Hrest.
    { eapply Forall2_impl_elem; [exact Hall|].
      intros x k Hx Hs. cbn beta. rewrite Hat.
      destruct (decide (x = oid)) as [->|_]; [|exact Hs].
      contradiction. }
    rewrite turns_cons in Hm.
    destruct n as [|n]; cbn [settles_in] in Hhead.
    + rewrite Hhead in Hc. rewrite (commits_settled _ Hhead) in Hq', Hu'.
      destruct (Hcom Hhead) as (v & Hw & Hd).
      destruct (IH (turns ns) ltac:(lia) ns s' fuel eq_refl)
        as (s2 & Hrun & Hq2 & Hu2 & Hn2 & Hc2).
      * rewrite Hq'. exact Hnd.
      * rewrite Hq', Hu'. reflexivity.
      * exact Hd.
      * intros x. rewrite Hw, get_observation_ids_update, Hq'.
        intros Hx. apply list_elem_of_filter in Hx as [Hne Hx].
        apply Hnull, elem_of_cons in Hx as [->|Hx]; [contradiction|exact Hx].
      * rewrite Hq'. exact Hrest.
      * lia.
      * exists s2. rewrite Hrun, Hc2, Hc, Hq'. cbn [length].
        repeat split; try assumption. lia.
    + apply andb_true_iff in Hhead as [Hfail Hnext].
      apply negb_true_iff in Hfail.
      assert (commits (net oid (attempts_of s oid)) = false) as Hnc.
      { destruct (commits _) eqn:E; [|reflexivity].
        apply commits_settled in E. congruence. }
      rewrite Hfail in Hq', Hu'. rewrite Hnc in Hc.
      destruct (Hnot Hnc) as [Hw Hd].
      destruct (IH (turns (ns ++ [n])%list) ltac:(rewrite turns_snoc; lia)
                   (ns ++ [n])%list s' fuel eq_refl)
        as (s2 & Hrun & Hq2 & Hu2 & Hn2 & Hc2).
      * rewrite Hq'. apply NoDup_app. split; [exact Hnd|].
        split; [|apply NoDup_singleton].
        intros x Hx Hx'. apply list_elem_of_singleton in Hx' as ->. contradiction.
      * rewrite Hq', Hu', length_app. cbn. lia.
      * rewrite Hw, Hd. exact Hdur.
      * intros x. rewrite Hw, Hq'. intros Hx.
        apply Hnull, elem_of_cons in Hx as [->|Hx]; apply elem_of_app;
          [right; left|left; exact Hx].
      * rewrite Hq'. apply Forall2_app; [exact Hrest|].
        constructor; [|constructor].
        rewrite Hat. rewrite decide_True by reflexivity. exact Hnext.
      * rewrite turns_snoc. lia.
      * exists s2. rewrite Hrun, Hc2, Hc, Hq', length_app. cbn [length].
        repeat split; try assumption. lia.
Qed.

(** X15: when the rows to annotate have distinct identifiers and each is
    answered with a labelled single record after finitely many failures,
    [main], given enough turns, commits once per identifier and leaves no
    row with NULL annotations on disk; it then waits on the empty queue and
    never reaches its own batch write. *)
Theorem main_annotates_every_row (net : Z -> nat -> response) (ns : list nat)
        (db : table) (fuel : nat) :
  NoDup (get_observation_ids db) ->
  Forall2 (fun oid n => settles_in net oid 0 n = true) (get_observation_ids db) ns ->
  (turns ns < fuel)%nat ->
  exists s' : state,
    main net fuel db = Blocked s'
    /\ queue s' = [] /\ unfinished s' = 0%nat
    /\ get_observation_ids (durable s') = []
    /\ commits_in (trace s') = length (get_observation_ids db).
Proof.
  intros Hnd Hall Hfuel.
  unfold main, main_tail, scrape_annotations_from_ids, scrape_annotations_from_ids_tail.
  set (ids := get_observation_ids db) in *.
  destruct (enqueue_all_shape ids (initial db)) as (Hq & Hu & Ha & Hw & Hc).
  cbn [initial queue unfinished attempts working trace app commits_in Nat.add]
    in Hq, Hu, Ha, Hw, Hc.
  destruct (scrape_annotations_completes net ns (enqueue_all ids (initial db)) fuel)
    as (s' & Hrun & Hq' & Hu' & Hn' & Hc').
  - rewrite Hq. exact Hnd.
  - rewrite Hq, Hu. reflexivity.
  - rewrite enqueue_all_durable, Hw. reflexivity.
  - rewrite Hw, Hq. tauto.
  - rewrite Hq. eapply Forall2_impl; [exact Hall|].
    intros x k Hs. unfold attempts_of. rewrite Ha, lookup_empty. exact Hs.
  - exact Hfuel.
  - exists s'. rewrite Hrun. cbn [bind]. rewrite Hc', Hc, Hq.
    repeat split; assumption.
Qed.

Lemma main_annotates_every_row_witness :
  exists s' : state,
    main (fun _ attempt =>
            if (attempt =? 0)%nat then Http 500 (JsonRaises "")
            else Http 200 (Json (Payload (Some 1)
                                   (Some [Observation (Some [Labelled "Alive"])]))))
         3 [Row 7 3 "https://h/7/medium.jpg" [] None;
            Row 8 3 "https://h/8/medium.jpg" [] (Some "Dead")]
    = Blocked s'
    /\ queue s' = [] /\ unfinished s' = 0%nat
    /\ get_observation_ids (durable s') = []
    /\ commits_in (trace s') = 1%nat.
Proof.
  apply (main_annotates_every_row
           (fun _ attempt =>
              if (attempt =? 0)%nat then Http 500 (JsonRaises "")
              else Http 200 (Json (Payload (Some 1)
                                     (Some [Observation (Some [Labelled "Alive"])]))))
           [1%nat]
           [Row 7 3 "https://h/7/medium.jpg" [] None;
            Row 8 3 "https://h/8/medium.jpg" [] (Some "Dead")] 3).
  - apply NoDup_singleton.
  - constructor; [reflexivity|constructor].
  - cbn. lia.
Defined.

End WorkerMore.

(** ** More on load_observations *)

Section LoadingMore.
Import Store Scrape.

Lemma drop_duplicates_from_spec (seen : list csv_row) (df : dataframe) :
  NoDup (drop_duplicates_from seen df)
  /\ (forall r : csv_row,
         r ∈ drop_duplicates_from seen df <-> r ∈ df /\ r ∉ seen).
Proof.
  revert seen. induction df as [|c df IH]; intros seen.
  - cbn. split; [constructor|]. intros r. rewrite elem_of_nil. tauto.
  - cbn [drop_duplicates_from]. case_bool_decide as Hc.
    + destruct (IH seen) as [Hn Hm]. split; [exact Hn|].
      intros r. rewrite Hm, elem_of_cons. split; [tauto|].
      intros [[->|Hr] Hs]; [contradiction|tauto].
    + destruct (IH (c :: seen)) as [Hn Hm]. split.
      * constructor; [|exact Hn]. rewrite Hm, elem_of_cons. tauto.
      * intros r. rewrite !elem_of_cons, Hm, elem_of_cons.
        destruct (decide (r = c)) as [->|Hne]; [tauto|tauto].
Qed.

Lemma read_exports_spec (listing : list export_file) (dfs : list dataframe) :
  read_exports listing = inr dfs ->
  forall df : dataframe,
    df ∈ dfs
    <-> exists (file : string) (members : gmap string dataframe),
          (file, members) ∈ listing /\ endswith ".zip" file = true
          /\ members !! rstrip ["."; "z"; "i"; "p"]%char file = Some df.
Proof.
  revert dfs. induction listing as [|[file members] listing IH]; intros dfs.
  - cbn. intros [= <-] df. rewrite elem_of_nil. split; [tauto|].
    intros (f & m & H & _). apply elem_of_nil in H. contradiction.
  - cbn [read_exports]. destruct (endswith ".zip" file) eqn:Hz.
    + destruct (members !! _) as [d|] eqn:Hm; [|discriminate].
      destruct (read_exports listing) as [e|ds]; [discriminate|].
      intros [= <-] df. rewrite elem_of_cons, (IH ds eq_refl). split.
      * intros [->|(f & m & H1 & H2 & H3)].
        -- exists file, members. repeat split; [left|assumption..].
        -- exists f, m. repeat split; [right|..]; assumption.
      * intros (f & m & H1 & H2 & H3). apply elem_of_cons in H1 as [[= -> ->]|H1].
        -- left. congruence.
        -- right. eauto.
    + intros Hr df. rewrite (IH dfs Hr). split.
      * intros (f & m & H1 & H2 & H3). exists f, m. repeat split; [right|..]; assumption.
      * intros (f & m & H1 & H2 & H3). apply elem_of_cons in H1 as [[= -> ->]|H1].
        -- congruence.
        -- eauto.
Qed.

(** X16: the table a run of [load_observations] writes has no two equal rows and
    holds, with NULL annotations, exactly the records of the CSV member of
    every archive of the export directory. *)
Theorem load_observations_rows (listing : list export_file) (db db' : table) :
  load_observations listing db = inr db' ->
  NoDup db'
  /\ (forall r : row,
         r ∈ db'
         <-> exists (c : csv_row) (file : string) (members : gmap string dataframe)
                    (df : dataframe),
               r = Row (csv_id c) (csv_taxon_id c) (csv_image_url c) (csv_other c) None
               /\ (file, members) ∈ listing /\ endswith ".zip" file = true
               /\ members !! rstrip ["."; "z"; "i"; "p"]%char file = Some df
               /\ c ∈ df).
Proof.
  unfold load_observations.
  destruct (read_exports listing) as [e|dfs] eqn:Hr; [discriminate|].
  unfold concat_frames. destruct dfs as [|d0 dfs]; [discriminate|].
  intros [= <-]. unfold to_sql_replace, drop_duplicates.
  destruct (drop_duplicates_from_spec [] (concat (d0 :: dfs))) as [Hn Hm].
  split.
  - assert (Inj eq eq (fun c => Row (csv_id c) (csv_taxon_id c) (csv_image_url c)
                                    (csv_other c) None)) as Hinj.
    { intros [a1 b1 c1 d1] [a2 b2 c2 d2]. cbn. intros [= -> -> -> ->]. reflexivity. }
    apply (NoDup_fmap_2 _), Hn.
  - intros r. rewrite list_elem_of_In, in_map_iff. split.
    + intros (c & <- & Hc). apply list_elem_of_In, Hm in Hc as [Hc _].
      apply list_elem_of_In, in_concat in Hc as (df & Hdf & Hc).
      apply list_elem_of_In in Hdf, Hc.
      apply (read_exports_spec _ _ Hr) in Hdf as (f & m & H1 & H2 & H3).
      exists c, f, m, df. repeat split; assumption.
    + intros (c & f & m & df & -> & H1 & H2 & H3 & H4).
      exists c. split; [reflexivity|]. apply list_elem_of_In, Hm.
      split; [|apply not_elem_of_nil].
      apply list_elem_of_In, in_concat. exists df.
      split; apply list_elem_of_In; [|exact H4].
      apply (read_exports_spec _ _ Hr). eauto.
Qed.

Lemma load_observations_rows_witness :
  load_observations
    [("observations-1.csv.zip",
      {[ "observations-1.csv" := [CsvRow 1 10 "https://h/1/medium.jpg" [];
                                  CsvRow 1 10 "https://h/1/medium.jpg" []] ]})] []
  = inr [Row 1 10 "https://h/1/medium.jpg" [] None]
  /\ NoDup [Row 1 10 "https://h/1/medium.jpg" [] None].
Proof.
  assert (load_observations
            [("observations-1.csv.zip",
              {[ "observations-1.csv" := [CsvRow 1 10 "https://h/1/medium.jpg" [];
                                          CsvRow 1 10 "https://h/1/medium.jpg" []] ]})] []
          = inr [Row 1 10 "https://h/1/medium.jpg" [] None]) as H
      by (vm_compute; reflexivity).
  split; [exact H|]. exact (proj1 (load_observations_rows _ _ _ H)).
Defined.

(** X17: files of the export directory whose name does not end in ".zip" play
    no part in the run. *)
Theorem load_observations_reads_zip_only (listing : list export_file) (db : table) :
  load_observations listing db
  = load_observations (filter (fun f => endswith ".zip" (fst f) = true) listing) db.
Proof.
  unfold load_observations.
  assert (read_exports listing
          = read_exports (filter (fun f => endswith ".zip" (fst f) = true) listing))
    as ->; [|reflexivity].
  induction listing as [|[file members] listing IH]; [reflexivity|].
  cbn [read_exports]. destruct (endswith ".zip" file) eqn:Hz.
  - rewrite filter_cons_True by exact Hz. cbn [read_exports]. rewrite Hz, IH.
    reflexivity.
  - rewrite filter_cons_False by (cbn; congruence). exact IH.
Qed.

Lemma rstrip_app_all (chars : list ascii) (a b : string) :
  rstrip chars b = EmptyString -> rstrip chars (a +:+ b) = rstrip chars a.
Proof.
  intros Hb. induction a as [|c a IH]; [exact Hb|].
  rewrite app_cons. cbn [rstrip]. rewrite IH. reflexivity.
Qed.

Lemma rstrip_fixed (chars : list ascii) (a : string) :
  rstrip chars a = a
  <-> a = EmptyString
      \/ exists (pre : string) (c : ascii),
           a = pre +:+ String c EmptyString /\ c ∉ chars.
Proof.
  induction a as [|c a IH]; [cbn; tauto|].
  cbn [rstrip]. split.
  - intros H. right. destruct (rstrip chars a) as [|d r] eqn:Hr.
    + case_bool_decide as Hc; [discriminate|].
      injection H as <-. exists EmptyString, c. split; [reflexivity|exact Hc].
    + injection H as H. destruct (proj1 IH H) as [->|(pre & e & -> & He)];
        [discriminate|].
      exists (String c pre), e. split; [reflexivity|exact He].
  - intros [H|(pre & e & H & He)]; [discriminate|].
    destruct pre as [|p pre].
    + cbn in H. injection H as -> ->. cbn [rstrip].
      rewrite bool_decide_eq_false_2 by exact He. reflexivity.
    + rewrite app_cons in H. injection H as -> ->.
      assert (rstrip chars (pre +:+ String e EmptyString) = pre +:+ String e EmptyString)
        as Hfix by (apply IH; right; eauto).
      rewrite Hfix. destruct pre; reflexivity.
Qed.

Lemma endswith_app (suffix base : string) : endswith suffix (base +:+ suffix) = true.
Proof.
  unfold endswith. rewrite app_length.
  destruct (Nat.leb_spec (String.length suffix) (String.length base + String.length suffix))
    as [_|]; [|lia].
  replace (String.length base + String.length suffix - String.length suffix)%nat
    with (String.length base) by lia.
  rewrite app_length_drop, String.eqb_refl. reflexivity.
Qed.

(** X18: the member read from the archive [<base>.zip] is [base] with its
    trailing ".", "z", "i" and "p" characters removed: it is [base] itself
    only when [base] is empty or ends in another character, and an archive
    that holds the single member [base] is read exactly then. *)
Theorem archive_member_name (base : string) (df : dataframe) :
  rstrip ["."; "z"; "i"; "p"]%char (base +:+ ".zip")
  = rstrip ["."; "z"; "i"; "p"]%char base
  /\ (rstrip ["."; "z"; "i"; "p"]%char base = base
      <-> base = EmptyString
          \/ exists (pre : string) (c : ascii),
               base = pre +:+ String c EmptyString
               /\ c ∉ ["."; "z"; "i"; "p"]%char)
  /\ read_exports [(base +:+ ".zip", {[ base := df ]})]
     = (if decide (rstrip ["."; "z"; "i"; "p"]%char base = base)
        then inr [df] else inl "There is no item named in the archive").
Proof.
  assert (rstrip ["."; "z"; "i"; "p"]%char (base +:+ ".zip")
          = rstrip ["."; "z"; "i"; "p"]%char base) as Hname.
  { apply rstrip_app_all. reflexivity. }
  split; [exact Hname|]. split; [apply rstrip_fixed|].
  cbn [read_exports]. rewrite endswith_app, Hname.
  destruct (decide (rstrip ["."; "z"; "i"; "p"]%char base = base)) as [->|Hne].
  - rewrite lookup_singleton_eq. reflexivity.
  - rewrite lookup_singleton_ne by congruence. reflexivity.
Qed.

End LoadingMore.

(** ** export.py: the checks and the wait of export *)

Section Exporting.
Import Exporter.

Lemma export_checks_ok (total_results : count) :
  export_checks total_results = inr tt
  <-> exists n : Z, total_results = Count n /\ n <> 0 /\ n <= MAX_EXPORT.
Proof.
  unfold export_checks.
  destruct total_results as [|n]; cbn [count_eq count_gt count_str].
  - cbn. split; [discriminate|]. intros (n & H & _). discriminate.
  - destruct (Z.eqb_spec n 0) as [->|Hn].
    + split; [discriminate|]. intros (k & [= <-] & Hk & _). contradiction.
    + destruct (Z.ltb_spec MAX_EXPORT n) as [Hgt|Hle].
      * split; [discriminate|]. intros (k & [= <-] & _ & Hk). lia.
      * split; [|reflexivity]. intros _. exists n. repeat split; assumption.
Qed.

(** X19: [export] goes on exactly when the count is a non-zero integer of at
    most [MAX_EXPORT]; a count of zero is reported as a failure to count,
    like the [False] of a failed request, so the "No results found" error
    is never raised. *)
Theorem export_checks_pass (total_results : count) :
  (export_checks total_results = inr tt
   <-> exists n : Z, total_results = Count n /\ n <> 0 /\ n <= MAX_EXPORT)
  /\ export_checks total_results <> inl "No results found"
  /\ export_checks (Count 0) = inl "Failed to count results"
  /\ export_checks CountFalse = inl "Failed to count results".
Proof.
  split; [apply export_checks_ok|]. split; [|split; reflexivity].
  unfold export_checks.
  destruct total_results as [|n]; cbn [count_eq count_gt count_str];
    [cbn; discriminate|].
  destruct (n =? 0); [discriminate|].
  destruct (MAX_EXPORT <? n); discriminate.
Qed.

(** X20: [export] gets past its checks exactly when the count request was
    answered 200 with a [total_results] that is not zero and at most
    [MAX_EXPORT]. *)
Theorem export_passes_checks (status : Z) (data : option Z) :
  match _count_results status data with
  | inl e => inl e
  | inr total_results => export_checks total_results
  end = inr tt
  <-> status = 200 /\ exists n : Z, data = Some n /\ n <> 0 /\ n <= MAX_EXPORT.
Proof.
  unfold _count_results. destruct (Z.eqb_spec status 200) as [->|Hs]; cbn [negb].
  - destruct data as [n|].
    + rewrite export_checks_ok. split.
      * intros (k & [= <-] & H). split; [reflexivity|eauto].
      * intros (_ & k & [= <-] & H). eauto.
    + split; [discriminate|]. intros (_ & n & H & _). discriminate.
  - split; [discriminate|]. intros [H _]. contradiction.
Qed.

Lemma export_wait_ready (answers : nat -> poll) (outs : list output) (status : Z)
      (gap : nat) (start fuel : nat) :
  (forall j : nat, (start <= j < start + gap)%nat ->
                   exists st : Z, answers j = Poll st [] /\ raise_for_status st = false) ->
  answers (start + gap)%nat = Poll status outs ->
  raise_for_status status = false ->
  outs <> [] ->
  (gap < fuel)%nat ->
  export_wait answers fuel start = Returned outs (start + gap)%nat.
Proof.
  revert start fuel. induction gap as [|gap IH]; intros start fuel Hwait Hk Hst Hne Hf.
  - destruct fuel as [|fuel]; [lia|]. cbn [export_wait].
    rewrite Nat.add_0_r in *. rewrite Hk, Hst.
    destruct outs; [contradiction|reflexivity].
  - destruct fuel as [|fuel]; [lia|]. cbn [export_wait].
    destruct (Hwait start ltac:(lia)) as (st & -> & ->). cbn [length Nat.ltb Nat.leb].
    replace (start + S gap)%nat with (S start + gap)%nat in * by lia.
    apply IH; try assumption; [|lia].
    intros j Hj. apply Hwait. lia.
Qed.

(** X21: [export] polls until the first answer with an output: when the first
    [k] answers are good and empty and the next one is good and not empty,
    the wait ends with the outputs of that answer after exactly [k] sleeps
    of two seconds. *)
Theorem export_wait_first_output (answers : nat -> poll) (outs : list output)
        (status : Z) (k fuel : nat) :
  (forall j : nat, (j < k)%nat ->
                   exists st : Z, answers j = Poll st [] /\ raise_for_status st = false) ->
  answers k = Poll status outs ->
  raise_for_status status = false ->
  outs <> [] ->
  (k < fuel)%nat ->
  export_wait answers fuel 0 = Returned outs k.
Proof.
  intros Hwait Hk Hst Hne Hf.
  apply (export_wait_ready answers outs status k 0 fuel); try assumption.
  intros j Hj. apply Hwait. lia.
Qed.

Lemma export_wait_first_output_witness :
  export_wait (fun j => if (j <? 2)%nat then Poll 200 []
                        else Poll 200 [Output 9 "observations-9.csv.zip"]) 5 0
  = Returned [Output 9 "observations-9.csv.zip"] 2%nat.
Proof.
  apply (export_wait_first_output
           (fun j => if (j <? 2)%nat then Poll 200 []
                     else Poll 200 [Output 9 "observations-9.csv.zip"])
           [Output 9 "observations-9.csv.zip"] 200 2 5).
  - intros j Hj. exists 200.
    destruct (Nat.ltb_spec j 2) as [_|]; [split; reflexivity|lia].
  - reflexivity.
  - reflexivity.
  - discriminate.
  - lia.
Defined.

(** X22: the wait never hands back an empty list of outputs, so the
    [data["outputs"][0]] that follows it always finds its element; and it
    stops with an exception at the first answer that raises or has a status
    from 400 to 599. *)
Theorem export_wait_safe (answers : nat -> poll) (fuel start : nat) :
  (forall (outs : list output) (s : nat),
      export_wait answers fuel start = Returned outs s ->
      is_Some (export_url outs) /\ (start <= s)%nat
      /\ exists status : Z, answers s = Poll status outs
                            /\ raise_for_status status = false)
  /\ (forall (e : string) (s : nat),
         export_wait answers fuel start = Raised e s ->
         (start <= s)%nat
         /\ (answers s = PollRaises e
             \/ exists (status : Z) (outs : list output),
                  answers s = Poll status outs /\ raise_for_status status = true)).
Proof.
  revert start. induction fuel as [|fuel IH]; intros start.
  - cbn. split; intros; discriminate.
  - cbn [export_wait]. destruct (answers start) as [e0|status outputs] eqn:Ha.
    + split; [intros; discriminate|]. intros e s [= <- <-]. split; [lia|]. left. exact Ha.
    + destruct (raise_for_status status) eqn:Hst.
      * split; [intros; discriminate|]. intros e s [= <- <-]. split; [lia|].
        right. eauto.
      * destruct outputs as [|o os]; cbn [length Nat.ltb Nat.leb].
        -- destruct (IH (S start)) as [H1 H2]. split.
           ++ intros outs s H. destruct (H1 outs s H) as (A & B & C).
              repeat split; [exact A|lia|exact C].
           ++ intros e s H. destruct (H2 e s H) as (A & B). split; [lia|exact B].
        -- split; [|intros; discriminate].
           intros outs s [= <- <-]. repeat split; [eexists; reflexivity|lia|eauto].
Qed.

Lemma export_wait_safe_witness :
  export_wait (fun j => if (j <? 1)%nat then Poll 200 []
                        else Poll 200 [Output 9 "observations-9.csv.zip"]) 5 0
  = Returned [Output 9 "observations-9.csv.zip"] 1%nat
  /\ is_Some (export_url [Output 9 "observations-9.csv.zip"]).
Proof.
  assert (export_wait (fun j => if (j <? 1)%nat then Poll 200 []
                                else Poll 200 [Output 9 "observations-9.csv.zip"]) 5 0
          = Returned [Output 9 "observations-9.csv.zip"] 1%nat) as H by reflexivity.
  split; [exact H|].
  exact (proj1 (proj1 (export_wait_safe _ 5 0) _ _ H)).
Defined.

End Exporting.

(** ** Two runs of the image variant *)

Section SecondRun.
Import Store Scrape Claimed.

Lemma download_images_final_files (net : nat -> string -> response)
      (arrivals : list nat) (urls : list item) (image_size : string)
      (semaphore : Z) (dir : image_dir) :
  1 <= semaphore ->
  files (final_state (download_images net arrivals urls image_size semaphore dir))
  = files (complete_all net arrivals
             (Loop semaphore (flying urls) dir [] urls (length urls))).
Proof.
  intros Hsem. rewrite download_images_gather_state by exact Hsem.
  destruct (pending _); reflexivity.
Qed.

(** X9: A run at the size "medium" whose requests are all answered 200 leaves
    nothing to do: when no URL has the bare "." extension, the work list
    built from the directory it leaves behind, with [force] off, is
    empty. *)
Theorem second_run_lists_nothing (net : nat -> string -> response)
        (arrivals : list nat) (conn : table) (semaphore : Z) (dir : image_dir) :
  1 <= semaphore ->
  (forall r : row, r ∈ conn -> url_ext (image_url r) <> ".") ->
  (forall (i : nat) (url : string), exists body : read_result, net i url = Http 200 body) ->
  (forall i : nat, (i < length (get_urls dir conn "medium" false))%nat -> i ∈ arrivals) ->
  get_urls
    (files (final_state
              (download_images net arrivals (get_urls dir conn "medium" false)
                 "medium" semaphore dir)))
    conn "medium" false
  = [].
Proof.
  intros Hsem Hdot Hnet Harr.
  rewrite download_images_final_files by exact Hsem.
  set (urls := get_urls dir conn "medium" false) in *.
  set (s0 := Loop semaphore (flying urls) dir [] urls (length urls)).
  unfold get_urls at 1. rewrite get_urls_loop_select. unfold get_urls_amended.
  assert (filter (listed_jpg (files (complete_all net arrivals s0)) false) conn = [])
    as ->; [|reflexivity].
  destruct (filter _ conn) as [|r l] eqn:Hf; [reflexivity|]. exfalso.
  assert (r ∈ filter (listed_jpg (files (complete_all net arrivals s0)) false) conn)
    as Hr by (rewrite Hf; left).
  apply list_elem_of_filter in Hr as [[Hgif Hl] Hr].
  destruct Hl as [Hl|Hl]; [|discriminate].
  unfold check_ext in Hl.
  destruct (String.eqb_spec (url_ext (image_url r)) ".") as [Heq|_];
    [exact (Hdot r Hr Heq)|].
  unfold exists_ in Hl.
  assert (is_Some (files (complete_all net arrivals s0)
                     !! (PyStr.str (observation_id r) +:+ url_ext (image_url r)))) as Hs;
    [|destruct Hs as [d Hd]; rewrite Hd in Hl; discriminate].
  destruct (dir !! (PyStr.str (observation_id r) +:+ url_ext (image_url r)))
    as [d|] eqn:Hdir.
  - apply complete_all_keeps_files. cbn [s0 files]. rewrite Hdir. eauto.
  - assert ((observation_id r, taxon_id r, image_url r) ∈ urls) as Hin.
    { unfold urls. rewrite get_urls_medium_keeps_urls_aux.
      apply list_elem_of_In, (in_map (fun r => (observation_id r, taxon_id r, image_url r))).
      apply list_elem_of_In, list_elem_of_filter. split; [|exact Hr].
      split; [exact Hgif|]. left. unfold check_ext, exists_.
      destruct (String.eqb_spec (url_ext (image_url r)) ".") as [Heq|_];
        [contradiction (Hdot r Hr Heq)|].
      rewrite Hdir. reflexivity. }
    apply list_elem_of_lookup in Hin as [i Hi].
    destruct (Hnet i (image_url r)) as [body Hb].
    apply (complete_all_writes net arrivals s0 i _ (taxon_id r) _ body).
    + cbn [s0 tasks]. unfold flying. rewrite list_lookup_fmap, Hi. reflexivity.
    + exact Hb.
    + apply Harr. eapply lookup_lt_Some. exact Hi.
Qed.

Lemma second_run_lists_nothing_witness :
  1 <= 10
  /\ get_urls
       (files (final_state
                 (download_images (fun _ _ => Http 200 (Body [Byte.x2a])) [1%nat; 0%nat]
                    (get_urls ∅ [Row 1 5 "https://h/1/medium.jpg" [] None;
                                 Row 2 5 "https://h/2/medium.png" [] None]
                       "medium" false)
                    "medium" 10 ∅)))
       [Row 1 5 "https://h/1/medium.jpg" [] None;
        Row 2 5 "https://h/2/medium.png" [] None] "medium" false
     = [].
Proof.
  split; [lia|].
  apply (second_run_lists_nothing (fun _ _ => Http 200 (Body [Byte.x2a])) [1%nat; 0%nat]
           [Row 1 5 "https://h/1/medium.jpg" [] None;
            Row 2 5 "https://h/2/medium.png" [] None] 10 ∅).
  - lia.
  - intros r Hr. apply list_elem_of_In in Hr. cbn in Hr.
    destruct Hr as [<-|[<-|[]]]; vm_compute; discriminate.
  - intros i url. eauto.
  - intros i Hi.
    assert (length (get_urls ∅ [Row 1 5 "https://h/1/medium.jpg" [] None;
                                Row 2 5 "https://h/2/medium.png" [] None]
                      "medium" false) = 2%nat) as Hlen by (vm_compute; reflexivity).
    rewrite Hlen in Hi.
    destruct i as [|[|i]]; [right; left|left|lia].
Defined.

End SecondRun.
